(** * AI interview detector: signal-fusion classifier and session-reporting protocol

    A shallow embedding of
      - [src/ml_classifier.py]          (module [Classifier]),
      - [main_detector.py]              (module [Detector]),
      - [client/candidate_detector.py]  (module [Client]),
      - [server/detection_server.py]    (module [Server]),
    together with the properties the specification states about them.

    Modelling conventions.
      - Python floats are idealised as exact rationals ([Q]); every threshold
        of the source ([0.9], [0.6], [0.75], ...) is the rational with the
        same decimal expansion.
      - A Python [dict] is a [gmap] keyed by strings; [d.get(k, default)]
        is [default] applied to the lookup.
      - [datetime.now()] is an input of every handler that reads the clock,
        counted in microseconds (the resolution of [datetime], which
        [isoformat]/[fromisoformat] round-trip exactly).
      - The values drawn from [secrets] are inputs of [create_session]. *)

From Stdlib Require Import ZArith QArith Qminmax Lia Lqa.
From stdpp Require Import gmap strings list fin_maps.

(** ** Comparisons and builtins of Python on numbers *)

Module Py.

Local Open Scope Q_scope.

(** [x > y] *)
Definition gt (x y : Q) : bool :=
  match x ?= y with Gt => true | _ => false end.

(** [max(x, y)] keeps its first argument unless the second is strictly
    larger; [min(x, y)] keeps its first argument unless the second is
    strictly smaller.  These are [Qmax] and [Qmin]. *)
Definition max2 (x y : Q) : Q := Qmax x y.
Definition min2 (x y : Q) : Q := Qmin x y.

(** [max(x, y, z)] scans left to right. *)
Definition max3 (x y z : Q) : Q := max2 (max2 x y) z.

(** [sum(xs)] on numbers, and [np.mean(xs)]. *)
Definition sum (xs : list Q) : Q := fold_left Qplus xs 0.
Definition mean (xs : list Q) : Q := sum xs / inject_Z (Z.of_nat (length xs)).

(** [xs[-n:]] *)
Definition last_n {A} (n : nat) (xs : list A) : list A :=
  drop (length xs - n) xs.

(** [deque(maxlen=cap).append(x)]: the oldest element is evicted when the
    deque is full. *)
Definition deque_append {A} (cap : nat) (xs : list A) (x : A) : list A :=
  if (cap <=? length xs)%nat then drop (S (length xs) - cap) (xs ++ [x])
  else xs ++ [x].

End Py.

(** ** [src/ml_classifier.py] *)

Module Classifier.

Local Open Scope Q_scope.

(** The fitted scaler and ensemble are opaque to this development: the
    pair, once loaded, is the function from the feature vector to the
    positive-class probability. *)
Record AIDetectionClassifier := {
  model : option (list Q -> Q);
  is_trained : bool
}.

(** [__init__] followed by [_load_model]: [artifacts] is the pair of
    pickled files when both exist and load, [None] otherwise. *)
Definition init (artifacts : option (list Q -> Q)) : AIDetectionClassifier :=
  match artifacts with
  | Some m => {| model := Some m; is_trained := true |}
  | None => {| model := None; is_trained := false |}
  end.

Definition get (features : gmap string Q) (key : string) (dflt : Q) : Q :=
  default dflt (features !! key).

Definition _extract_feature_vector (features : gmap string Q) : list Q :=
  [ get features "process_score" 0.0;
    get features "audio_score" 0.0;
    get features "behavior_score" 0.0 ].

Definition _rule_based_prediction (features : gmap string Q) : Q :=
  let process_score := get features "process_score" 0.0 in
  let audio_score := get features "audio_score" 0.0 in
  let behavior_score := get features "behavior_score" 0.0 in
  let combined_score :=
    process_score * 0.4 + audio_score * 0.35 + behavior_score * 0.25 in
  let max_score := Py.max3 process_score audio_score behavior_score in
  let combined_score :=
    if Py.gt max_score 0.9 then Py.max2 combined_score 0.85
    else combined_score in
  let high_scores :=
    length (filter (fun s => Py.gt s 0.6 = true)
                   [process_score; audio_score; behavior_score]) in
  if (2 <=? high_scores)%nat then Py.min2 1.0 (combined_score + 0.15)
  else combined_score.

Definition predict (c : AIDetectionClassifier) (features : gmap string Q) : Q :=
  let feature_vector := _extract_feature_vector features in
  match is_trained c, model c with
  | true, Some m => m feature_vector
  | _, _ => _rule_based_prediction features
  end.

(** The feature dict the callers build. *)
Definition features_of (process_score audio_score behavior_score timestamp : Q)
  : gmap string Q :=
  <["process_score" := process_score]>
    (<["audio_score" := audio_score]>
       (<["behavior_score" := behavior_score]>
          (<["timestamp" := timestamp]> ∅))).

(** *** The rule-based variant as the specification words it *)

Definition exceeds (threshold s : Q) : bool :=
  match Qlt_le_dec threshold s with left _ => true | right _ => false end.

Definition at_least_two_exceed (threshold p a b : Q) : bool :=
  (exceeds threshold p && exceeds threshold a)
  || (exceeds threshold p && exceeds threshold b)
  || (exceeds threshold a && exceeds threshold b).

Definition reference_predict (p a b : Q) : Q :=
  let combined := 0.4 * p + 0.35 * a + 0.25 * b in
  let boosted1 :=
    if exceeds 0.9 (Qmax (Qmax p a) b) then Qmax combined 0.85 else combined in
  if at_least_two_exceed 0.6 p a b then Qmin 1.0 (boosted1 + 0.15)
  else boosted1.

End Classifier.

(** ** Alerts, shared by the detector, the client and the server *)

Inductive AlertType :=
  | PROCESS_DETECTION | AUDIO_ANOMALY | CLIPBOARD_DETECTION
  | TYPING_ANOMALY | AI_DETECTION.

Inductive Severity := MEDIUM | HIGH | CRITICAL.

(** [datetime.now().isoformat()] in the detector, [time.time()] in the
    client. *)
Inductive Timestamp :=
  | Iso (t : Z)
  | Epoch (t : Q).

(** The [details] text.  An f-string that interpolates numbers is kept as
    its constructor applied to the interpolated values. *)
Inductive Details :=
  | Text (s : string)
  | SpeechPattern (pause fluency : Q)
  | HighProbability (confidence : Q).

Record Alert := {
  timestamp : Timestamp;
  type_ : AlertType;
  severity : Severity;
  details : Details
}.

(** ** The audio features read by the audio cycles *)

Module AudioFeatures.

Local Open Scope Q_scope.

(** The two scores the audio cycles read from the feature dict. *)
Definition pause_score (audio_features : gmap string Q) : Q :=
  Classifier.get audio_features "pause_pattern_score" 0.
Definition fluency_score (audio_features : gmap string Q) : Q :=
  Classifier.get audio_features "fluency_score" 0.

Definition medium_audio_anomaly (a : Alert) : Prop :=
  type_ a = AUDIO_ANOMALY /\ severity a = MEDIUM.

End AudioFeatures.

(** ** [main_detector.py] *)

Module Detector.

Local Open Scope Q_scope.
Import Classifier.

Record AIInterviewDetector := {
  classifier : AIDetectionClassifier;
  detection_scores : list Q;          (* deque(maxlen=100) *)
  alerts : list Alert;
  is_monitoring : bool
}.

Definition init (c : AIDetectionClassifier) : AIInterviewDetector :=
  {| classifier := c; detection_scores := []; alerts := [];
     is_monitoring := false |}.

Definition append_alert (d : AIInterviewDetector) (a : Alert)
  : AIInterviewDetector :=
  {| classifier := classifier d; detection_scores := detection_scores d;
     alerts := alerts d ++ [a]; is_monitoring := is_monitoring d |}.

(** One iteration of the loop of [_monitor_audio].  [audio_features] is
    what [analyze_realtime_audio()] returned: [None] or the feature
    dict; an empty dict is falsy. *)
Definition _monitor_audio (d : AIInterviewDetector)
    (audio_features : option (gmap string Q)) (now : Z)
  : AIInterviewDetector :=
  match audio_features with
  | Some audio_features =>
      if bool_decide (audio_features = ∅) then d
      else
        let pause_score := get audio_features "pause_pattern_score" 0 in
        let fluency_score := get audio_features "fluency_score" 0 in
        if Py.gt pause_score 0.7 && Py.gt fluency_score 0.8 then
          append_alert d
            {| timestamp := Iso now; type_ := AUDIO_ANOMALY;
               severity := MEDIUM;
               details := SpeechPattern pause_score fluency_score |}
        else d
  | None => d
  end.

(** One iteration of the loop of [_analyze_patterns].  The three
    suspicion scores are what the monitors' [get_suspicion_score()]
    returned, [time_] is [time.time()]. *)
Definition _analyze_patterns (d : AIInterviewDetector)
    (process_score audio_score behavior_score time_ : Q) (now : Z)
  : AIInterviewDetector :=
  let features := features_of process_score audio_score behavior_score time_ in
  let ai_probability := predict (classifier d) features in
  let d :=
    {| classifier := classifier d;
       detection_scores := Py.deque_append 100 (detection_scores d) ai_probability;
       alerts := alerts d; is_monitoring := is_monitoring d |} in
  if (10 <? length (detection_scores d))%nat then
    let avg_score := Py.mean (Py.last_n 10 (detection_scores d)) in
    if Py.gt avg_score 0.75 then
      append_alert d
        {| timestamp := Iso now; type_ := AI_DETECTION;
           severity := CRITICAL; details := HighProbability avg_score |}
    else d
  else d.

(** The scores recorded once a cycle of [_analyze_patterns] has run. *)
Definition recorded (d : AIInterviewDetector)
    (process_score audio_score behavior_score time_ : Q) : list Q :=
  Py.deque_append 100 (detection_scores d)
    (predict (classifier d)
       (features_of process_score audio_score behavior_score time_)).

(** The polling cycles of [_analyze_patterns] in sequence: each element
    of [inputs] is what one iteration reads from its collaborators and
    clocks. *)
Definition analysis_cycles (d : AIInterviewDetector)
    (inputs : list (Q * Q * Q * Q * Z)) : AIInterviewDetector :=
  fold_left
    (fun d '(process_score, audio_score, behavior_score, time_, now) =>
       _analyze_patterns d process_score audio_score behavior_score time_ now)
    inputs d.

End Detector.

(** ** [client/candidate_detector.py] *)

Module Client.

Local Open Scope Q_scope.
Import Classifier.

Record CandidateDetectorClient := {
  audio_analyzer : bool;              (* false: [self.audio_analyzer is None] *)
  detection_scores : list Q;
  alerts : list Alert;
  is_monitoring : bool
}.

Definition append_alert (c : CandidateDetectorClient) (a : Alert)
  : CandidateDetectorClient :=
  {| audio_analyzer := audio_analyzer c;
     detection_scores := detection_scores c;
     alerts := alerts c ++ [a]; is_monitoring := is_monitoring c |}.

(** One iteration of the loop of [_monitor_audio]; [audio_features] is
    read only when an analyzer is present. *)
Definition _monitor_audio (c : CandidateDetectorClient)
    (audio_features : option (gmap string Q)) (time_ : Q)
  : CandidateDetectorClient :=
  if negb (audio_analyzer c) then c
  else
    match audio_features with
    | Some audio_features =>
        if bool_decide (audio_features = ∅) then c
        else
          let pause_score := get audio_features "pause_pattern_score" 0 in
          if Py.gt pause_score 0.7 then
            append_alert c
              {| timestamp := Epoch time_; type_ := AUDIO_ANOMALY;
                 severity := MEDIUM;
                 details := Text "Suspicious speech pattern" |}
          else c
    | None => c
    end.

(** A client whose monitoring has started, before any alert. *)
Definition started : CandidateDetectorClient :=
  {| audio_analyzer := true; detection_scores := [];
     alerts := []; is_monitoring := true |}.

End Client.

(** ** [server/detection_server.py] *)

Module Server.

Local Open Scope Z_scope.

Inductive Status := waiting | active | ended | disconnected.

#[global] Instance Status_eq_dec : EqDecision Status.
Proof. solve_decision. Defined.

(** A value of [session_tokens]. *)
Record TokenEntry := {
  token : string;
  tok_candidate_name : string;
  created_at : Z;
  tok_status : Status
}.

(** A value of [active_sessions]. *)
Record SessionData := {
  candidate_name : string;
  last_update : Z;
  detection_score : Q;
  alerts : list Alert;
  process_score : Q;
  audio_score : Q;
  behavior_score : Q;
  suspicious_processes : list string;
  status : Status
}.

(** The two module-level dicts. *)
Record State := {
  session_tokens : gmap string TokenEntry;
  active_sessions : gmap string SessionData
}.

Definition initial : State :=
  {| session_tokens := ∅; active_sessions := ∅ |}.

(** The JSON body of [POST /api/report]; a field is [None] when its key
    is absent. *)
Record ReportData := {
  r_session_id : option string;
  r_token : option string;
  r_detection_score : option Q;
  r_alerts : option (list Alert);
  r_process_score : option Q;
  r_audio_score : option Q;
  r_behavior_score : option Q;
  r_suspicious_processes : option (list string)
}.

(** The report built by [end_session]. *)
Record FinalReport := {
  fr_session_id : string;
  fr_candidate_name : string;
  final_score : Q;
  total_alerts : nat;
  ended_at : Z
}.

(** What [jsonify] is applied to. *)
Inductive Body :=
  | Error (error : string)
  | StatusOnly (status : string)
  | Created (session_id token candidate_name download_url : string)
  | Sessions (active_sessions : gmap string SessionData) (total_sessions : nat)
  | Session (data : SessionData)
  | Ended (report : FinalReport).

Record Response := { body : Body; code : nat }.

(** What [socketio.emit] is applied to. *)
Inductive Event :=
  | candidate_update (session_id : string) (data : SessionData)
  | high_risk_alert (session_id candidate_name : string) (score : Q)
  | session_ended (report : FinalReport).

(** A handler returns its response, leaves the dicts in a new state and
    emits events in order. *)
Record Outcome := {
  response : Response;
  state : State;
  emitted : list Event
}.

Definition set_tok_status (s : Status) (e : TokenEntry) : TokenEntry :=
  {| token := token e; tok_candidate_name := tok_candidate_name e;
     created_at := created_at e; tok_status := s |}.

Definition set_status (s : Status) (d : SessionData) : SessionData :=
  {| candidate_name := candidate_name d; last_update := last_update d;
     detection_score := detection_score d; alerts := alerts d;
     process_score := process_score d; audio_score := audio_score d;
     behavior_score := behavior_score d;
     suspicious_processes := suspicious_processes d; status := s |}.

(** [timedelta(minutes=5)], in microseconds. *)
Definition five_minutes : Z := 5 * 60 * 1000000.

(** [POST /api/create-session].  [candidate_name] is the field of the
    request ([None] when absent); [session_id] and [session_token] are
    the draws from [secrets]. *)
Definition create_session (st : State) (candidate_name : option string)
    (session_id session_token : string) (now : Z) : Outcome :=
  let candidate_name := default "Unknown"%string candidate_name in
  {| response :=
       {| body := Created session_id session_token candidate_name
                    ("/download/client/" +:+ session_id);
          code := 200 |};
     state :=
       {| session_tokens :=
            <[session_id :=
                {| token := session_token;
                   tok_candidate_name := candidate_name;
                   created_at := now;
                   tok_status := waiting |}]> (session_tokens st);
          active_sessions := active_sessions st |};
     emitted := [] |}.

(** [POST /api/report] *)
Definition receive_detection_report (st : State) (data : ReportData) (now : Z)
  : Outcome :=
  let unauthorized msg :=
    {| response := {| body := Error msg; code := 401 |};
       state := st; emitted := [] |} in
  match r_session_id data with
  | None => unauthorized "Invalid session"%string
  | Some session_id =>
      match session_tokens st !! session_id with
      | None => unauthorized "Invalid session"%string
      | Some entry =>
          if bool_decide (Some (token entry) ≠ r_token data) then
            unauthorized "Invalid token"%string
          else
            let session_tokens' :=
              <[session_id := set_tok_status active entry]> (session_tokens st) in
            let record :=
              {| candidate_name := tok_candidate_name entry;
                 last_update := now;
                 detection_score := default 0%Q (r_detection_score data);
                 alerts := default [] (r_alerts data);
                 process_score := default 0%Q (r_process_score data);
                 audio_score := default 0%Q (r_audio_score data);
                 behavior_score := default 0%Q (r_behavior_score data);
                 suspicious_processes :=
                   default [] (r_suspicious_processes data);
                 status := active |} in
            let update := candidate_update session_id record in
            let alert :=
              if Py.gt (default 0%Q (r_detection_score data)) 0.75%Q then
                [high_risk_alert session_id (tok_candidate_name entry)
                   (default 0%Q (r_detection_score data))]
              else [] in
            {| response := {| body := StatusOnly "success"; code := 200 |};
               state :=
                 {| session_tokens := session_tokens';
                    active_sessions :=
                      <[session_id := record]> (active_sessions st) |};
               emitted := update :: alert |}
      end
  end.

(** [GET /api/sessions]: the loop rewrites the status of every stale
    record in place, and the response carries the dict it rewrote. *)
Definition mark_stale (current_time : Z) (data : SessionData) : SessionData :=
  if five_minutes <? current_time - last_update data
  then set_status disconnected data
  else data.

Definition get_all_sessions (st : State) (now : Z) : Outcome :=
  let active_sessions' := mark_stale now <$> active_sessions st in
  {| response :=
       {| body := Sessions active_sessions' (size active_sessions');
          code := 200 |};
     state :=
       {| session_tokens := session_tokens st;
          active_sessions := active_sessions' |};
     emitted := [] |}.

(** [GET /api/session/<session_id>] *)
Definition get_session_details (st : State) (session_id : string) : Outcome :=
  match active_sessions st !! session_id with
  | Some data =>
      {| response := {| body := Session data; code := 200 |};
         state := st; emitted := [] |}
  | None =>
      {| response := {| body := Error "Session not found"; code := 404 |};
         state := st; emitted := [] |}
  end.

(** [POST /api/end-session/<session_id>] *)
Definition end_session (st : State) (session_id : string) (now : Z) : Outcome :=
  match active_sessions st !! session_id with
  | Some data =>
      let report :=
        {| fr_session_id := session_id;
           fr_candidate_name := candidate_name data;
           final_score := detection_score data;
           total_alerts := length (alerts data);
           ended_at := now |} in
      {| response := {| body := Ended report; code := 200 |};
         state :=
           {| session_tokens := session_tokens st;
              active_sessions :=
                <[session_id := set_status ended data]> (active_sessions st) |};
         emitted := [session_ended report] |}
  | None =>
      {| response := {| body := Error "Session not found"; code := 404 |};
         state := st; emitted := [] |}
  end.

(** *** Sequences of requests *)

Inductive Request :=
  | CreateSession (candidate_name : option string)
                  (session_id session_token : string) (now : Z)
  | Report (data : ReportData) (now : Z)
  | ListSessions (now : Z)
  | SessionDetails (session_id : string)
  | EndSession (session_id : string) (now : Z).

Definition handle (st : State) (rq : Request) : Outcome :=
  match rq with
  | CreateSession name session_id session_token now =>
      create_session st name session_id session_token now
  | Report data now => receive_detection_report st data now
  | ListSessions now => get_all_sessions st now
  | SessionDetails session_id => get_session_details st session_id
  | EndSession session_id now => end_session st session_id now
  end.

Definition serve (st : State) (rqs : list Request) : State :=
  fold_left (fun st rq => state (handle st rq)) rqs st.

(** The draw of [create_session] is an id no session has had before. *)
Definition fresh_id (st : State) (rq : Request) : Prop :=
  match rq with
  | CreateSession _ session_id _ _ => session_tokens st !! session_id = None
  | _ => True
  end.

Fixpoint all_fresh (st : State) (rqs : list Request) : Prop :=
  match rqs with
  | [] => True
  | rq :: rqs => fresh_id st rq /\ all_fresh (state (handle st rq)) rqs
  end.

(** The status a session is in: the one of its record in
    [active_sessions] once it has one, the one [create_session] gave it
    before. *)
Definition session_status (st : State) (session_id : string) : option Status :=
  match active_sessions st !! session_id with
  | Some data => Some (status data)
  | None => tok_status <$> session_tokens st !! session_id
  end.

(** A report passes the token check of [receive_detection_report]. *)
Definition authenticates (st : State) (data : ReportData) : Prop :=
  exists session_id entry,
    r_session_id data = Some session_id
    /\ session_tokens st !! session_id = Some entry
    /\ r_token data = Some (token entry).

(** *** What the specification's words name in the server *)

(** The moves of the status of session [sid] that a request makes when it
    is served in [st]: only a request for that session moves it, a report
    only when it passes the token check, a list query only when it finds
    the session's record stale. *)
Inductive status_move (st : State) (sid : string)
  : Request -> option Status -> option Status -> Prop :=
  | move_none rq s :
      status_move st sid rq s s
  | move_create name session_token now :
      session_tokens st !! sid = None ->
      status_move st sid (CreateSession name sid session_token now)
        None (Some waiting)
  | move_report data now s :
      r_session_id data = Some sid ->
      authenticates st data ->
      status_move st sid (Report data now) (Some s) (Some active)
  | move_end now s :
      s <> waiting ->
      status_move st sid (EndSession sid now) (Some s) (Some ended)
  | move_stale now s d :
      s <> waiting ->
      active_sessions st !! sid = Some d ->
      five_minutes < now - last_update d ->
      status_move st sid (ListSessions now) (Some s) (Some disconnected).

(** The session id of the report names a session. *)
Definition known_session (st : State) (data : ReportData) : bool :=
  match r_session_id data with
  | Some session_id => bool_decide (is_Some (session_tokens st !! session_id))
  | None => false
  end.

(** The record holds the report's fields, read at [now]. *)
Definition holds_report (d : SessionData) (data : ReportData) (now : Z) : Prop :=
  last_update d = now
  /\ detection_score d = default 0%Q (r_detection_score data)
  /\ alerts d = default [] (r_alerts data)
  /\ process_score d = default 0%Q (r_process_score data)
  /\ audio_score d = default 0%Q (r_audio_score data)
  /\ behavior_score d = default 0%Q (r_behavior_score data)
  /\ suspicious_processes d = default [] (r_suspicious_processes data).

(** What an accepted report leaves behind for its session. *)
Definition ingested (st : State) (sid : string) (data : ReportData) (now : Z) : Prop :=
  tok_status <$> session_tokens st !! sid = Some active
  /\ exists d, active_sessions st !! sid = Some d
       /\ status d = active /\ holds_report d data now.

(** The 404 of the query and end endpoints. *)
Definition not_found : Response :=
  {| body := Error "Session not found"; code := 404 |}.

(** The sessions that have left [waiting], as [session_tokens] has them. *)
Definition reported (st : State) : gmap string TokenEntry :=
  filter (fun kv => tok_status kv.2 <> waiting) (session_tokens st).

(** What holds of the two dicts after any sequence of requests. *)
Record consistent (st : State) : Prop := {
  active_not_waiting :
    forall session_id d,
      active_sessions st !! session_id = Some d -> status d <> waiting;
  active_iff_reported :
    forall session_id,
      is_Some (active_sessions st !! session_id)
      <-> exists e, session_tokens st !! session_id = Some e
                    /\ tok_status e = active;
  token_status :
    forall session_id e,
      session_tokens st !! session_id = Some e ->
      tok_status e = waiting \/ tok_status e = active
}.

(** *** A session for Alice *)

Definition alice_created : Request :=
  CreateSession (Some "Alice"%string) "s1" "t1" 0.

Definition report_of (session_id token : string) (score : Q) : ReportData :=
  {| r_session_id := Some session_id; r_token := Some token;
     r_detection_score := Some score; r_alerts := Some [];
     r_process_score := Some score; r_audio_score := Some 0%Q;
     r_behavior_score := Some 0%Q; r_suspicious_processes := Some [] |}.

Definition minute : Z := 60 * 1000000.

(** Alice's session created, reported at minute 1 and ended at minute 2. *)
Definition alice_ended : State :=
  serve initial
    [alice_created; Report (report_of "s1" "t1" 0.9%Q) minute;
     EndSession "s1" (2 * minute)].

(** Alice's session once its first report has come in, at time [0]. *)
Definition reported_at_zero : State :=
  serve initial [alice_created; Report (report_of "s1" "t1" 0.9%Q) 0].

End Server.

(** * The monitors, the other loops and the reports *)

(** ** What the properties of the classifier and of the registry name *)

Module Fusion.

Local Open Scope Q_scope.

(** The weighted combination, before any boost. *)
Definition weighted_sum (features : gmap string Q) : Q :=
  Classifier.get features "process_score" 0.0 * 0.4
  + Classifier.get features "audio_score" 0.0 * 0.35
  + Classifier.get features "behavior_score" 0.0 * 0.25.

End Fusion.

Module Credentials.

Import Server.

(** The parts of a token entry that no handler assigns after creation. *)
Definition same_credentials (e e' : TokenEntry) : Prop :=
  token e' = token e
  /\ tok_candidate_name e' = tok_candidate_name e
  /\ created_at e' = created_at e.

End Credentials.

(** ** Python's [in] on strings *)

Module PyText.

(** [sub in s] *)
Fixpoint contains (sub s : string) : bool :=
  String.prefix sub s
  || match s with
     | EmptyString => false
     | String _ rest => contains sub rest
     end.

(** [s] is [sub] with something before and something after. *)
Definition occurs_in (sub s : string) : Prop :=
  exists before after : string, s = before +:+ sub +:+ after.

End PyText.

(** ** [client/src/process_monitor.py] *)

Module ProcessMonitor.

Local Open Scope Q_scope.
Import PyText.

(** An element of [get_running_processes()]: the name, the executable
    path and the command line, lower-cased, [''] where psutil has none. *)
Record Process := {
  pid : Z;
  name : string;
  exe : string;
  cmdline : string
}.

(** [self.process_history] is assigned in [__init__] and never used. *)
Record ProcessMonitor := { suspicion_score : Q }.

Definition init : ProcessMonitor := {| suspicion_score := 0.0 |}.

(** The inner loop of [detect_suspicious_processes]: the first keyword
    found in one of the three fields ends it. *)
Fixpoint matches (proc : Process) (keywords : list string) : bool :=
  match keywords with
  | [] => false
  | keyword :: keywords =>
      if contains keyword (name proc) || contains keyword (exe proc)
         || contains keyword (cmdline proc)
      then true
      else matches proc keywords
  end.

(** The outer loop, [suspicious] being the list built so far. *)
Fixpoint scan (processes : list Process) (keywords : list string)
    (suspicious : list string) : list string :=
  match processes with
  | [] => suspicious
  | proc :: processes =>
      scan processes keywords
        (if matches proc keywords then suspicious ++ [name proc]
         else suspicious)
  end.

Definition detect_suspicious_processes (self : ProcessMonitor)
    (processes : list Process) (keywords : list string)
  : list string * ProcessMonitor :=
  let suspicious := scan processes keywords [] in
  (suspicious,
   {| suspicion_score :=
        match suspicious with
        | _ :: _ => Py.min2 1.0 (suspicion_score self + 0.2)
        | [] => Py.max2 0.0 (suspicion_score self - 0.05)
        end |}).

Definition get_suspicion_score (self : ProcessMonitor) : Q :=
  suspicion_score self.

(** The loops of [check_screen_sharing_tools], which look at the name
    only; [processes] is what [get_running_processes()] returned. *)
Fixpoint name_matches (proc : Process) (keywords : list string) : bool :=
  match keywords with
  | [] => false
  | keyword :: keywords =>
      if contains keyword (name proc) then true
      else name_matches proc keywords
  end.

Fixpoint scan_names (processes : list Process) (keywords : list string)
    (found : list string) : list string :=
  match processes with
  | [] => found
  | proc :: processes =>
      scan_names processes keywords
        (if name_matches proc keywords then found ++ [name proc] else found)
  end.

Definition check_screen_sharing_tools (processes : list Process) : list string :=
  scan_names processes
    ["zoom"; "teams"; "meet"; "webex"; "skype"; "teamviewer"; "anydesk"; "vnc"]%string
    [].

(** Some running process carries one of the keywords. *)
Definition some_match (processes : list Process) (keywords : list string)
  : Prop :=
  exists proc keyword,
    proc ∈ processes /\ keyword ∈ keywords
    /\ (occurs_in keyword (name proc) \/ occurs_in keyword (exe proc)
        \/ occurs_in keyword (cmdline proc)).

(** Rounds of detection in sequence, each on the processes then running. *)
Definition detection_rounds (self : ProcessMonitor)
    (rounds : list (list Process)) (keywords : list string) : ProcessMonitor :=
  fold_left
    (fun self processes => (detect_suspicious_processes self processes keywords).2)
    rounds self.

End ProcessMonitor.

(** ** [src/audio_analyzer.py] *)

Module AudioAnalyzer.

Local Open Scope Q_scope.

(** Of the fields of the analyzer only [suspicion_score] is read by the
    code modelled here; the queue and the recording thread feed
    [analyze_realtime_audio], whose input stands for them. *)
Record AudioAnalyzer := { suspicion_score : Q }.

Definition init : AudioAnalyzer := {| suspicion_score := 0.0 |}.

(** The loop of [_detect_pauses] from frame [i] on. *)
Fixpoint detect_from (i : nat) (is_speech : list bool)
    (in_pause : bool) (pause_start : nat) (pauses : list (nat * nat))
  : list (nat * nat) :=
  match is_speech with
  | [] => pauses
  | speaking :: rest =>
      if negb speaking && negb in_pause then
        detect_from (S i) rest true i pauses
      else if speaking && in_pause then
        detect_from (S i) rest false pause_start (pauses ++ [(pause_start, i)])
      else detect_from (S i) rest in_pause pause_start pauses
  end.

Definition _detect_pauses (is_speech : list bool) : list (nat * nat) :=
  detect_from 0 is_speech false 0 [].

(** [np.sum(np.diff(is_speech.astype(int)) != 0)] *)
Fixpoint transitions (is_speech : list bool) : nat :=
  match is_speech with
  | x :: (y :: _) as rest =>
      ((if Bool.eqb x y then 0 else 1) + transitions rest)%nat
  | _ => 0%nat
  end.

Definition of_nat (n : nat) : Q := inject_Z (Z.of_nat n).

Definition _calculate_fluency (is_speech : list bool) : Q :=
  if (length is_speech =? 0)%nat then 0.0
  else
    let speech_ratio :=
      of_nat (length (filter (fun s => s = true) is_speech))
      / of_nat (length is_speech) in
    let transition_penalty :=
      Py.min2 1.0 (of_nat (transitions is_speech) / 10) in
    speech_ratio * (1 - transition_penalty * 0.3).

(** [p[1] - p[0] > 32] *)
Definition long_pause (p : nat * nat) : bool := (32 <? p.2 - p.1)%nat.

Definition _calculate_pause_pattern_score (pauses : list (nat * nat))
    (fluency_score : Q) : Q :=
  match pauses with
  | [] => 0.0
  | _ :: _ =>
      if Py.gt 0.5 fluency_score then 0.0
      else
        let long_pauses := filter (fun p => long_pause p = true) pauses in
        match long_pauses with
        | _ :: _ => if Py.gt fluency_score 0.8 then 0.8 else 0.3
        | [] => 0.0
        end
  end.

(** [features[key]] raises [KeyError] on a missing key: [None] is the
    raise. *)
Definition _update_suspicion_score (self : AudioAnalyzer)
    (features : gmap string Q) : option AudioAnalyzer :=
  pause_pattern_score ← features !! "pause_pattern_score";
  let score := if Py.gt pause_pattern_score 0.7 then 0.0 + 0.4 else 0.0 in
  fluency_score ← features !! "fluency_score";
  let score := if Py.gt fluency_score 0.9 then score + 0.3 else score in
  pitch_variation ← features !! "pitch_variation";
  let score := if Py.gt 50 pitch_variation then score + 0.2 else score in
  avg_pause_duration ← features !! "avg_pause_duration";
  let score :=
    if Py.gt avg_pause_duration 3.0 && Py.gt fluency_score 0.7
    then score + 0.3 else score in
  Some {| suspicion_score := Py.min2 1.0 score |}.

(** [_extract_audio_features].  What librosa computes from the samples is
    an input: the frames whose energy is above the threshold
    ([is_speech]), the pitch variation and the mean spectral centroid. *)
Definition _extract_audio_features (self : AudioAnalyzer)
    (is_speech : list bool) (pitch_variation spectral_centroid_mean : Q)
  : option (gmap string Q * AudioAnalyzer) :=
  let pauses := _detect_pauses is_speech in
  let fluency_score := _calculate_fluency is_speech in
  let features : gmap string Q :=
    <["pause_pattern_score" :=
        _calculate_pause_pattern_score pauses fluency_score]>
      (<["spectral_centroid_mean" := spectral_centroid_mean]>
         (<["pitch_variation" := pitch_variation]>
            (<["fluency_score" := fluency_score]>
               (<["avg_pause_duration" :=
                    match pauses with
                    | _ :: _ =>
                        Py.mean ((fun p => of_nat (p.2 - p.1)) <$> pauses)
                    | [] => 0
                    end]>
                  (<["pause_count" := of_nat (length pauses)]> ∅))))) in
  self ← _update_suspicion_score self features;
  Some (features, self).

(** [analyze_realtime_audio]: [audio] is [None] when the queue holds no
    chunk; an exception while extracting is caught and gives [None]. *)
Definition analyze_realtime_audio (self : AudioAnalyzer)
    (audio : option (list bool * Q * Q))
  : option (gmap string Q) * AudioAnalyzer :=
  match audio with
  | None => (None, self)
  | Some (is_speech, pitch_variation, spectral_centroid_mean) =>
      match _extract_audio_features self is_speech pitch_variation
              spectral_centroid_mean with
      | Some (features, self) => (Some features, self)
      | None => (None, self)
      end
  end.

Definition get_suspicion_score (self : AudioAnalyzer) : Q :=
  suspicion_score self.

(** A window of 33 silent frames followed by 300 frames of speech: one
    long pause, then fluent speech. *)
Definition pause_then_speech : list bool :=
  replicate 33 false ++ replicate 300 true.

(** What the specification of a pause says of a pair of frame indices:
    silence from [s] up to [e], speech at [e], and speech just before [s]
    unless the recording starts there. *)
Definition is_pause (is_speech : list bool) (p : nat * nat) : Prop :=
  (p.1 < p.2)%nat
  /\ is_speech !! p.2 = Some true
  /\ (forall i, (p.1 <= i < p.2)%nat -> is_speech !! i = Some false)
  /\ (p.1 = 0%nat \/ is_speech !! (p.1 - 1)%nat = Some true).

End AudioAnalyzer.

(** ** [client/src/behavioral_monitor.py] *)

Module BehaviorMonitor.

Local Open Scope Q_scope.

(** An element of [mouse_events]. *)
Record MouseEvent := {
  m_type : string;
  m_x : Z;
  m_y : Z;
  m_time : Q
}.

(** An element of [clipboard_history]. *)
Record ClipboardEntry := {
  c_text : string;
  ai_score : Q;
  c_time : Q
}.

(** The fields the summary and the score read; the listeners and the
    clipboard thread, which fill them, are not modelled. *)
Record BehaviorMonitor := {
  keystroke_times : list Q;
  mouse_events : list MouseEvent;
  clipboard_history : list ClipboardEntry;
  suspicion_score : Q
}.

Definition init : BehaviorMonitor :=
  {| keystroke_times := []; mouse_events := []; clipboard_history := [];
     suspicion_score := 0.0 |}.

(** The dict [get_activity_summary] returns: a key it does not set is
    [None]. *)
Record ActivitySummary := {
  avg_typing_interval : option Q;
  typing_consistency : option Q;
  rapid_typing_detected : option bool;
  clipboard_ai_score : option Q;
  mouse_activity_level : option Q
}.

(** [times[i] - times[i-1]] for [i] from [1]. *)
Fixpoint intervals (times : list Q) : list Q :=
  match times with
  | t0 :: (t1 :: _) as rest => (t1 - t0) :: intervals rest
  | _ => []
  end.

(** [max(xs)] on a list whose first element is [x]. *)
Definition max_from (x : Q) (xs : list Q) : Q := fold_left Py.max2 xs x.

Section Summary.

(** [x ** 0.5] *)
Variable sqrt : Q -> Q.

(** [now] is the [time.time()] of the mouse activity level. *)
Definition get_activity_summary (self : BehaviorMonitor) (now : Q)
  : ActivitySummary :=
  let typing :=
    if (10 <? length (keystroke_times self))%nat then
      let typing_intervals :=
        filter (fun interval => Py.gt 1.0 interval = true)
          (intervals (keystroke_times self)) in
      match typing_intervals with
      | _ :: _ =>
          let avg_interval :=
            Py.sum typing_intervals
            / AudioAnalyzer.of_nat (length typing_intervals) in
          let std_interval :=
            sqrt (Py.sum ((fun x => (x - avg_interval) ^ 2) <$> typing_intervals)
                  / AudioAnalyzer.of_nat (length typing_intervals)) in
          Some (avg_interval, std_interval, Py.gt 0.05 avg_interval)
      | [] => None
      end
    else None in
  {| avg_typing_interval := (fun t => t.1.1) <$> typing;
     typing_consistency := (fun t => t.1.2) <$> typing;
     rapid_typing_detected := (fun t => t.2) <$> typing;
     clipboard_ai_score :=
       Some match Py.last_n 5 (clipboard_history self) with
            | c :: recent => max_from (ai_score c) (ai_score <$> recent)
            | [] => 0.0
            end;
     mouse_activity_level :=
       Some match mouse_events self with
            | first :: _ =>
                AudioAnalyzer.of_nat (length (mouse_events self))
                / Py.max2 1 (now - m_time first)
            | [] => 0
            end |}.

Definition get_suspicion_score (self : BehaviorMonitor) (now : Q) : Q :=
  let summary := get_activity_summary self now in
  let score := suspicion_score self in
  let score :=
    if default false (rapid_typing_detected summary)
    then Py.min2 1.0 (score + 0.2) else score in
  if Py.gt 0.1 (default 1.0 (mouse_activity_level summary))
     && (50 <? length (keystroke_times self))%nat
  then Py.min2 1.0 (score + 0.1) else score.

End Summary.

End BehaviorMonitor.

#[global] Instance Severity_eq_dec : EqDecision Severity.
Proof. solve_decision. Defined.

#[global] Instance AlertType_eq_dec : EqDecision AlertType.
Proof. solve_decision. Defined.

(** ** [main_detector.py]: the other loops, the report, the whole detector *)

Module DetectorLoops.

Local Open Scope Q_scope.
Import Classifier Detector.

Definition suspicious_keywords : list string :=
  ["chatgpt"; "claude"; "copilot"; "cluely"; "yoodli";
   "gemini"; "bard"; "perplexity"; "interviewcoder"]%string.

(** The report [generate_report] dumps to [logs/]. *)
Record Report := {
  session_duration : string;
  total_alerts : nat;
  critical : nat;
  high : nat;
  medium : nat;
  average_detection_score : Q;
  report_alerts : list Alert
}.

Definition count_severity (s : Severity) (alerts : list Alert) : nat :=
  length (filter (fun a => severity a = s) alerts).

Definition generate_report (d : AIInterviewDetector) : Report :=
  {| session_duration := "N/A";
     total_alerts := length (alerts d);
     critical := count_severity CRITICAL (alerts d);
     high := count_severity HIGH (alerts d);
     medium := count_severity MEDIUM (alerts d);
     average_detection_score :=
       match detection_scores d with
       | _ :: _ => Py.mean (detection_scores d)
       | [] => 0
       end;
     report_alerts := alerts d |}.

Definition stop_monitoring (d : AIInterviewDetector)
  : AIInterviewDetector * Report :=
  let d :=
    {| classifier := classifier d; detection_scores := detection_scores d;
       alerts := alerts d; is_monitoring := false |} in
  (d, generate_report d).

(** The detector with the monitors whose state its loops change. *)
Record System := {
  detector : AIInterviewDetector;
  process_monitor : ProcessMonitor.ProcessMonitor;
  audio_analyzer : AudioAnalyzer.AudioAnalyzer
}.

Definition start (c : AIDetectionClassifier) : System :=
  {| detector := Detector.init c;
     process_monitor := ProcessMonitor.init;
     audio_analyzer := AudioAnalyzer.init |}.

(** One iteration of one of the four loops, with what it reads from
    outside: the running processes, the audio of the window, the state
    the input listeners have left in the behavior monitor, the clocks. *)
Inductive Tick :=
  | ProcessTick (processes : list ProcessMonitor.Process) (now : Z)
  | AudioTick (audio : option (list bool * Q * Q)) (now : Z)
  | BehaviorTick (monitor : BehaviorMonitor.BehaviorMonitor) (time_ : Q)
                 (now now' : Z)
  | AnalysisTick (monitor : BehaviorMonitor.BehaviorMonitor) (time_ time' : Q)
                 (now : Z).

(** The (type, severity) pairs of the alerts the loops build. *)
Definition severity_of (t : AlertType) : Severity :=
  match t with
  | PROCESS_DETECTION | CLIPBOARD_DETECTION => HIGH
  | AUDIO_ANOMALY | TYPING_ANOMALY => MEDIUM
  | AI_DETECTION => CRITICAL
  end.

Section Rendering.

(** The text of a list of names in an f-string, the text of a number
    under [:.2f], and [x ** 0.5]. *)
Variable str_of_list : list string -> string.
Variable fmt_2f : Q -> string.
Variable sqrt : Q -> Q.

(** One iteration of the loop of [_monitor_processes]. *)
Definition _monitor_processes (d : AIInterviewDetector)
    (monitor : ProcessMonitor.ProcessMonitor)
    (processes : list ProcessMonitor.Process) (now : Z)
  : AIInterviewDetector * ProcessMonitor.ProcessMonitor :=
  let '(suspicious, monitor) :=
    ProcessMonitor.detect_suspicious_processes monitor processes
      suspicious_keywords in
  match suspicious with
  | _ :: _ =>
      (append_alert d
         {| timestamp := Iso now; type_ := PROCESS_DETECTION;
            severity := HIGH;
            details :=
              Text ("Suspicious processes detected: "
                    +:+ str_of_list suspicious) |},
       monitor)
  | [] => (d, monitor)
  end.

(** One iteration of the loop of [_monitor_behavior]; each alert reads
    the clock for itself. *)
Definition _monitor_behavior (d : AIInterviewDetector)
    (behavior_data : BehaviorMonitor.ActivitySummary) (now now' : Z)
  : AIInterviewDetector :=
  let clipboard_score :=
    default 0 (BehaviorMonitor.clipboard_ai_score behavior_data) in
  let d :=
    if Py.gt clipboard_score 0.7 then
      append_alert d
        {| timestamp := Iso now; type_ := CLIPBOARD_DETECTION;
           severity := HIGH;
           details :=
             Text ("AI-generated text detected in clipboard (confidence: "
                   +:+ fmt_2f clipboard_score +:+ ")") |}
    else d in
  if default false (BehaviorMonitor.rapid_typing_detected behavior_data) then
    append_alert d
      {| timestamp := Iso now'; type_ := TYPING_ANOMALY;
         severity := MEDIUM;
         details := Text "Unnaturally fast typing detected" |}
  else d.

Definition step (sys : System) (tick : Tick) : System :=
  match tick with
  | ProcessTick processes now =>
      let '(d, monitor) :=
        _monitor_processes (detector sys) (process_monitor sys) processes now in
      {| detector := d; process_monitor := monitor;
         audio_analyzer := audio_analyzer sys |}
  | AudioTick audio now =>
      let '(audio_features, analyzer) :=
        AudioAnalyzer.analyze_realtime_audio (audio_analyzer sys) audio in
      {| detector := Detector._monitor_audio (detector sys) audio_features now;
         process_monitor := process_monitor sys;
         audio_analyzer := analyzer |}
  | BehaviorTick monitor time_ now now' =>
      {| detector :=
           _monitor_behavior (detector sys)
             (BehaviorMonitor.get_activity_summary sqrt monitor time_) now now';
         process_monitor := process_monitor sys;
         audio_analyzer := audio_analyzer sys |}
  | AnalysisTick monitor time_ time' now =>
      {| detector :=
           Detector._analyze_patterns (detector sys)
             (ProcessMonitor.get_suspicion_score (process_monitor sys))
             (AudioAnalyzer.get_suspicion_score (audio_analyzer sys))
             (BehaviorMonitor.get_suspicion_score sqrt monitor time_)
             time' now;
         process_monitor := process_monitor sys;
         audio_analyzer := audio_analyzer sys |}
  end.

Definition run (sys : System) (ticks : list Tick) : System :=
  fold_left step ticks sys.

End Rendering.

(** An alert carries the severity of its type. *)
Definition typed (a : Alert) : Prop := severity a = severity_of (type_ a).

(** What the loops keep true of a detector without a trained model. *)
Record in_range (sys : System) : Prop := {
  rule_based : classifier (detector sys) = Classifier.init None;
  process_in_range :
    0 <= ProcessMonitor.suspicion_score (process_monitor sys) <= 1;
  audio_in_range :
    0 <= AudioAnalyzer.suspicion_score (audio_analyzer sys) <= 1;
  scores_in_range :
    Forall (fun s => 0 <= s <= 1) (detection_scores (detector sys))
}.

(** The behavior monitor handed to a tick has a stored score in [[0,1]]. *)
Definition behaved (tick : Tick) : Prop :=
  match tick with
  | BehaviorTick monitor _ _ _ | AnalysisTick monitor _ _ _ =>
      0 <= BehaviorMonitor.suspicion_score monitor <= 1
  | _ => True
  end.

Definition is_analysis (tick : Tick) : bool :=
  match tick with AnalysisTick _ _ _ _ => true | _ => false end.

(** *** The first cycles of a session *)







End DetectorLoops.

(** ** [client/candidate_detector.py]: the process loop and the reports *)

Module ClientLoops.

Local Open Scope Q_scope.
Import Classifier Client.

(** The client with what its constructor stores besides: the session it
    reports for, the classifier and the monitors. *)
Record Reporter := {
  client : CandidateDetectorClient;
  session_id : string;
  token : string;
  classifier : AIDetectionClassifier;
  process_monitor : ProcessMonitor.ProcessMonitor;
  audio : AudioAnalyzer.AudioAnalyzer
}.

Definition with_client (r : Reporter) (c : CandidateDetectorClient) : Reporter :=
  {| client := c; session_id := session_id r; token := token r;
     classifier := classifier r; process_monitor := process_monitor r;
     audio := audio r |}.

Definition with_process_monitor (r : Reporter)
    (monitor : ProcessMonitor.ProcessMonitor) : Reporter :=
  {| client := client r; session_id := session_id r; token := token r;
     classifier := classifier r; process_monitor := monitor;
     audio := audio r |}.

(** The keywords of [_report_to_server]. *)
Definition report_keywords : list string :=
  ["chatgpt"; "claude"; "copilot"; "cluely"]%string.

Section Rendering.

(** [', '.join(set(names))], [list(set(names))] (the order is the set's)
    and [x ** 0.5]. *)
Variable join_set : list string -> string.
Variable list_of_set : list string -> list string.
Variable sqrt : Q -> Q.

(** One iteration of the loop of [_monitor_processes]. *)
Definition _monitor_processes (r : Reporter)
    (processes : list ProcessMonitor.Process) (time_ : Q) : Reporter :=
  let '(suspicious, monitor) :=
    ProcessMonitor.detect_suspicious_processes (process_monitor r) processes
      DetectorLoops.suspicious_keywords in
  let r := with_process_monitor r monitor in
  match suspicious with
  | _ :: _ =>
      with_client r
        (append_alert (client r)
           {| timestamp := Epoch time_; type_ := PROCESS_DETECTION;
              severity := HIGH;
              details := Text ("Detected: " +:+ join_set (take 3 suspicious)) |})
  | [] => r
  end.

(** The first half of an iteration of [_report_to_server]: the score is
    recorded and the report built.  [monitor] is the behavior monitor as
    the listeners have left it, [processes] what the second
    [get_running_processes()] returned. *)
Definition build_report (r : Reporter)
    (monitor : BehaviorMonitor.BehaviorMonitor) (time_ time' : Q)
    (processes : list ProcessMonitor.Process)
  : Server.ReportData * Reporter :=
  let process_score := ProcessMonitor.get_suspicion_score (process_monitor r) in
  let audio_score :=
    if audio_analyzer (client r)
    then AudioAnalyzer.get_suspicion_score (audio r) else 0.0 in
  let behavior_score :=
    BehaviorMonitor.get_suspicion_score sqrt monitor time_ in
  let features := features_of process_score audio_score behavior_score time' in
  let detection_score := predict (classifier r) features in
  let c :=
    {| audio_analyzer := audio_analyzer (client r);
       detection_scores := detection_scores (client r) ++ [detection_score];
       alerts := alerts (client r);
       is_monitoring := is_monitoring (client r) |} in
  let suspicious_procs :=
    ProcessMonitor.scan_names processes report_keywords [] in
  ({| Server.r_session_id := Some (session_id r);
      Server.r_token := Some (token r);
      Server.r_detection_score := Some detection_score;
      Server.r_alerts := Some (Py.last_n 10 (alerts c));
      Server.r_process_score := Some process_score;
      Server.r_audio_score := Some audio_score;
      Server.r_behavior_score := Some behavior_score;
      Server.r_suspicious_processes := Some (list_of_set suspicious_procs) |},
   with_client r c).

(** The whole iteration against the server: [server] is [None] when the
    request does not reach it, and the client only prints what comes
    back. *)
Definition _report_to_server (r : Reporter)
    (monitor : BehaviorMonitor.BehaviorMonitor) (time_ time' : Q)
    (processes : list ProcessMonitor.Process)
    (server : option Server.State) (now : Z)
  : Reporter * option Server.Outcome :=
  let '(report, r) := build_report r monitor time_ time' processes in
  (r, (fun st => Server.receive_detection_report st report now) <$> server).

End Rendering.

(** A client started for Alice's session, its process monitor saturated. *)
Definition alice_reporter : Reporter :=
  {| client := Client.started; session_id := "s1"; token := "t1";
     classifier := Classifier.init None;
     process_monitor := {| ProcessMonitor.suspicion_score := 1 |};
     audio := AudioAnalyzer.init |}.

End ClientLoops.

(** * Properties *)

(** ** Facts about the Python builtins *)

Module PyFacts.

Local Open Scope Q_scope.
Import Py.

Lemma gt_true x y : gt x y = true <-> y < x.
Proof.
  unfold gt. rewrite Qgt_alt. destruct (x ?= y); split; congruence.
Qed.

Lemma gt_false x y : gt x y = false <-> x <= y.
Proof.
  unfold gt. rewrite Qle_alt. destruct (x ?= y); split; congruence.
Qed.

Lemma max2_cases x y : (x < y /\ max2 x y = y) \/ (y <= x /\ max2 x y = x).
Proof.
  unfold max2, Qmax, GenericMinMax.gmax.
  destruct (x ?= y) eqn:E.
  - right. split; [|reflexivity]. apply Qeq_alt in E. rewrite E. apply Qle_refl.
  - left. split; [|reflexivity]. now apply Qlt_alt.
  - right. split; [|reflexivity]. apply Qlt_le_weak. now apply Qgt_alt.
Qed.

Lemma min2_cases x y : (y < x /\ min2 x y = y) \/ (x <= y /\ min2 x y = x).
Proof.
  unfold min2, Qmin, GenericMinMax.gmin.
  destruct (x ?= y) eqn:E.
  - right. split; [|reflexivity]. apply Qeq_alt in E. rewrite E. apply Qle_refl.
  - right. split; [|reflexivity]. apply Qlt_le_weak. now apply Qlt_alt.
  - left. split; [|reflexivity]. now apply Qgt_alt.
Qed.

(** [sum([1 for s in [p, a, b] if f(s)])] *)
Lemma count3 (f : Q -> bool) (p a b : Q) :
  length (filter (fun s => f s = true) [p; a; b])
  = (Nat.b2n (f p) + Nat.b2n (f a) + Nat.b2n (f b))%nat.
Proof.
  rewrite !filter_cons, filter_nil.
  destruct (f p), (f a), (f b); reflexivity.
Qed.

End PyFacts.

(** ** The rule-based classifier *)

Module ClassifierFacts.

Local Open Scope Q_scope.
Import Classifier PyFacts.

Lemma gt_exceeds s t : Py.gt s t = exceeds t s.
Proof.
  unfold exceeds. destruct (Qlt_le_dec t s) as [H|H].
  - now apply gt_true.
  - now apply gt_false.
Qed.

Lemma predict_untrained features :
  predict (init None) features = _rule_based_prediction features.
Proof. reflexivity. Qed.

Lemma rule_based_reference features :
  _rule_based_prediction features ==
  reference_predict (get features "process_score" 0.0)
                    (get features "audio_score" 0.0)
                    (get features "behavior_score" 0.0).
Proof.
  unfold _rule_based_prediction, reference_predict, at_least_two_exceed.
  generalize (get features "process_score" 0.0) as p.
  generalize (get features "audio_score" 0.0) as a.
  generalize (get features "behavior_score" 0.0) as b.
  intros b a p. cbv zeta.
  rewrite count3, !gt_exceeds. unfold Py.max3, Py.max2, Py.min2.
  set (c1 := p * 0.4 + a * 0.35 + b * 0.25).
  set (c2 := 0.4 * p + 0.35 * a + 0.25 * b).
  assert (Hc : c1 == c2) by (unfold c1, c2; ring).
  assert (Hm : Qmax c1 0.85 == Qmax c2 0.85) by (now rewrite Hc).
  destruct (exceeds 0.9 (Qmax (Qmax p a) b));
    destruct (exceeds 0.6 p), (exceeds 0.6 a), (exceeds 0.6 b); cbn;
    rewrite ?Hm, ?Hc; reflexivity.
Qed.

(** C1.  The prediction of the classifier built without a trained model
    is the reference definition of the specification: the weighted sum
    [0.4*process + 0.35*audio + 0.25*behavior], floored at [0.85] when the
    largest score exceeds [0.9], then raised by [0.15] and capped at [1.0]
    when at least two scores exceed [0.6].  The boosts come in this order
    and can both fire: on [{0.95, 0.7, 0.0}] the floor lifts [0.625] to
    [0.85] and the second boost then caps [1.0], where the opposite order
    would give [0.85].  On [{0.95, 0.0, 0.0}] the prediction is at least
    [0.85]. *)
Theorem C1_predict_is_reference :
  (forall features : gmap string Q,
      predict (init None) features ==
      reference_predict (get features "process_score" 0.0)
                        (get features "audio_score" 0.0)
                        (get features "behavior_score" 0.0))
  /\ predict (init None) (features_of 0.95 0.7 0.0 0) == 1
  /\ 0.85 <= predict (init None) (features_of 0.95 0.0 0.0 0).
Proof.
  split; [|split].
  - intros features. rewrite predict_untrained. apply rule_based_reference.
  - vm_compute. reflexivity.
  - vm_compute. discriminate.
Qed.

Lemma rule_based_bounds features :
  0 <= get features "process_score" 0.0 <= 1 ->
  0 <= get features "audio_score" 0.0 <= 1 ->
  0 <= get features "behavior_score" 0.0 <= 1 ->
  0 <= _rule_based_prediction features <= 1.
Proof.
  unfold _rule_based_prediction.
  generalize (get features "process_score" 0.0) as p.
  generalize (get features "audio_score" 0.0) as a.
  generalize (get features "behavior_score" 0.0) as b.
  intros b a p Hp Ha Hb. cbv zeta.
  rewrite count3.
  set (c := p * 0.4 + a * 0.35 + b * 0.25).
  assert (Hc : 0 <= c <= 1) by (unfold c; lra).
  assert (Hlow : Py.gt p 0.6 = false -> Py.gt a 0.6 = false -> c <= 0.79).
  { rewrite !gt_false. unfold c. lra. }
  assert (Hlow2 : Py.gt p 0.6 = false -> Py.gt b 0.6 = false -> c <= 0.85).
  { rewrite !gt_false. unfold c. lra. }
  assert (Hlow3 : Py.gt a 0.6 = false -> Py.gt b 0.6 = false -> c <= 0.85).
  { rewrite !gt_false. unfold c. lra. }
  destruct (Py.gt (Py.max3 p a b) 0.9);
    destruct (Py.gt p 0.6), (Py.gt a 0.6), (Py.gt b 0.6); cbn;
    repeat match goal with
      | |- context [Py.max2 ?x ?y] =>
          destruct (max2_cases x y) as [[? ->]|[? ->]]
      | |- context [Py.min2 ?x ?y] =>
          destruct (min2_cases x y) as [[? ->]|[? ->]]
      end;
    try specialize (Hlow eq_refl eq_refl);
    try specialize (Hlow2 eq_refl eq_refl);
    try specialize (Hlow3 eq_refl eq_refl);
    lra.
Qed.

(** C2.  When the three scores lie in [[0,1]], the prediction of the
    rule-based classifier lies in [[0,1]] as well, with or without the
    boosts. *)
Theorem C2_prediction_in_unit_interval (features : gmap string Q) :
  0 <= get features "process_score" 0.0 <= 1 ->
  0 <= get features "audio_score" 0.0 <= 1 ->
  0 <= get features "behavior_score" 0.0 <= 1 ->
  0 <= predict (init None) features <= 1.
Proof.
  intros Hp Ha Hb. rewrite predict_untrained.
  now apply rule_based_bounds.
Qed.

(** All three scores at [1]: both boosts fire and the cap holds. *)
Lemma C2_prediction_in_unit_interval_witness :
  0 <= predict (init None) (features_of 1 1 1 0) <= 1.
Proof.
  apply (C2_prediction_in_unit_interval (features_of 1 1 1 0));
    vm_compute; split; discriminate.
Defined.

End ClassifierFacts.

(** ** The alert rules of the detector and of the client *)

Module AlertFacts.

Local Open Scope Q_scope.
Import Classifier PyFacts AudioFeatures.

Lemma analyze_patterns_scores d p a b t now :
  Detector.detection_scores (Detector._analyze_patterns d p a b t now)
  = Detector.recorded d p a b t.
Proof.
  unfold Detector._analyze_patterns, Detector.recorded. cbv zeta.
  cbn [Detector.detection_scores]. repeat case_match; reflexivity.
Qed.

(** What a cycle of [_analyze_patterns] does to the alert log: the
    CRITICAL alert is appended exactly when more than ten scores are
    recorded and the mean of the last ten exceeds [0.75]. *)
Lemma analyze_patterns_alerts d p a b t now :
  Detector.alerts (Detector._analyze_patterns d p a b t now)
  = if (10 <? length (Detector.recorded d p a b t))%nat
       && Py.gt (Py.mean (Py.last_n 10 (Detector.recorded d p a b t))) 0.75
    then Detector.alerts d ++
           [{| timestamp := Iso now; type_ := AI_DETECTION;
               severity := CRITICAL;
               details :=
                 HighProbability (Py.mean (Py.last_n 10 (Detector.recorded d p a b t))) |}]
    else Detector.alerts d.
Proof.
  unfold Detector._analyze_patterns. cbv zeta.
  cbn [Detector.detection_scores]. fold (Detector.recorded d p a b t).
  destruct (10 <? length (Detector.recorded d p a b t))%nat; [|reflexivity].
  destruct (Py.gt _ 0.75); reflexivity.
Qed.

Lemma client_monitor_audio c audio_features time_ :
  Client.audio_analyzer c = true ->
  audio_features <> ∅ ->
  Client.alerts (Client._monitor_audio c (Some audio_features) time_)
  = if Py.gt (pause_score audio_features) 0.7
    then Client.alerts c ++
           [{| timestamp := Epoch time_; type_ := AUDIO_ANOMALY;
               severity := MEDIUM;
               details := Text "Suspicious speech pattern" |}]
    else Client.alerts c.
Proof.
  intros Ha Hne. unfold Client._monitor_audio, pause_score.
  rewrite Ha. cbn. rewrite bool_decide_eq_false_2 by assumption.
  destruct (Py.gt _ 0.7); reflexivity.
Qed.

Lemma detector_monitor_audio d audio_features now :
  audio_features <> ∅ ->
  Detector.alerts (Detector._monitor_audio d (Some audio_features) now)
  = if Py.gt (pause_score audio_features) 0.7
       && Py.gt (fluency_score audio_features) 0.8
    then Detector.alerts d ++
           [{| timestamp := Iso now; type_ := AUDIO_ANOMALY;
               severity := MEDIUM;
               details := SpeechPattern (pause_score audio_features)
                            (fluency_score audio_features) |}]
    else Detector.alerts d.
Proof.
  intros Hne. unfold Detector._monitor_audio, pause_score, fluency_score.
  rewrite bool_decide_eq_false_2 by assumption.
  destruct (_ && _); reflexivity.
Qed.

End AlertFacts.

(** ** The session registry and report ingestion *)

Module ServerFacts.

Import Server.
Local Open Scope Z_scope.

(** The lookup at key [j] after the assignment [d[i] = x]. *)
Ltac lookup_at i j :=
  destruct (decide (i = j)) as [<-|?];
  [rewrite ?lookup_insert_eq | rewrite ?lookup_insert_ne by assumption].

(** The token check of [receive_detection_report], case by case. *)
Lemma report_unknown_session st data now :
  known_session st data = false ->
  receive_detection_report st data now
  = {| response := {| body := Error "Invalid session"; code := 401 |};
       state := st; emitted := [] |}.
Proof.
  unfold known_session, receive_detection_report.
  destruct (r_session_id data) as [sid|]; [|reflexivity].
  intros H. apply bool_decide_eq_false in H.
  destruct (session_tokens st !! sid) eqn:E; [|reflexivity].
  exfalso. apply H. eauto.
Qed.

Lemma report_wrong_token st data now :
  known_session st data = true ->
  ~ authenticates st data ->
  receive_detection_report st data now
  = {| response := {| body := Error "Invalid token"; code := 401 |};
       state := st; emitted := [] |}.
Proof.
  unfold known_session, receive_detection_report, authenticates.
  destruct (r_session_id data) as [sid|]; [|discriminate].
  intros H Hn. apply bool_decide_eq_true in H. destruct H as [e He].
  rewrite He. case_bool_decide as Ht; [reflexivity|].
  exfalso. apply Hn. exists sid, e. repeat split; try assumption.
  destruct (decide (Some (token e) = r_token data)) as [<-|Hd]; [reflexivity|].
  contradiction.
Qed.

(** A rejected report: the answer, and nothing else. *)
Lemma report_rejected st data now :
  ~ authenticates st data ->
  receive_detection_report st data now
  = {| response :=
         {| body := Error (if known_session st data then "Invalid token"
                           else "Invalid session");
            code := 401 |};
       state := st; emitted := [] |}.
Proof.
  intros Hn. destruct (known_session st data) eqn:E.
  - now apply report_wrong_token.
  - now apply report_unknown_session.
Qed.

(** What an accepted report answers and stores. *)
Lemma report_accepted st data now sid entry :
  r_session_id data = Some sid ->
  session_tokens st !! sid = Some entry ->
  r_token data = Some (token entry) ->
  let out := receive_detection_report st data now in
  response out = {| body := StatusOnly "success"; code := 200 |}
  /\ session_tokens (state out)
     = <[sid := set_tok_status active entry]> (session_tokens st)
  /\ exists d, active_sessions (state out) = <[sid := d]> (active_sessions st)
       /\ candidate_name d = tok_candidate_name entry
       /\ status d = active
       /\ holds_report d data now.
Proof.
  intros Hs He Ht. unfold receive_detection_report. rewrite Hs, He, Ht.
  rewrite bool_decide_eq_false_2 by (intros H; now apply H).
  cbn. split; [reflexivity|]. split; [reflexivity|].
  eexists. split; [reflexivity|]. repeat split.
Qed.

(** Either a report is rejected and changes nothing, or it is accepted. *)
Lemma report_cases st data now :
  (~ authenticates st data /\ state (receive_detection_report st data now) = st)
  \/ (exists sid entry d,
        r_session_id data = Some sid
        /\ session_tokens st !! sid = Some entry
        /\ r_token data = Some (token entry)
        /\ status d = active
        /\ state (receive_detection_report st data now)
           = {| session_tokens :=
                  <[sid := set_tok_status active entry]> (session_tokens st);
                active_sessions := <[sid := d]> (active_sessions st) |}).
Proof.
  destruct (r_session_id data) as [sid|] eqn:Hs.
  2: { left. split.
       - intros (sid & e & H & _). congruence.
       - unfold receive_detection_report. now rewrite Hs. }
  destruct (session_tokens st !! sid) as [entry|] eqn:He.
  2: { left. split.
       - intros (sid' & e & H & H' & _). congruence.
       - unfold receive_detection_report. now rewrite Hs, He. }
  destruct (decide (r_token data = Some (token entry))) as [Ht|Ht].
  - right. destruct (report_accepted st data now sid entry Hs He Ht)
      as (_ & Htok & d & Hact & _ & Hst & _).
    exists sid, entry, d. repeat split; try assumption.
    destruct (state _); cbn in *. congruence.
  - left. assert (Hn : ~ authenticates st data).
    { intros (sid' & e & H & H' & H''). congruence. }
    split; [assumption|]. now rewrite report_rejected.
Qed.

Lemma report_ingested st data now sid entry :
  r_session_id data = Some sid ->
  session_tokens st !! sid = Some entry ->
  r_token data = Some (token entry) ->
  let out := receive_detection_report st data now in
  response out = {| body := StatusOnly "success"; code := 200 |}
  /\ session_tokens (state out) !! sid = Some (set_tok_status active entry)
  /\ ingested (state out) sid data now.
Proof.
  intros Hs He Ht out.
  destruct (report_accepted st data now sid entry Hs He Ht)
    as (Hr & Htok & d & Hact & _ & Hst & Hh).
  fold out in Hr, Htok, Hact. split; [exact Hr|].
  assert (Hl : session_tokens (state out) !! sid = Some (set_tok_status active entry)).
  { rewrite Htok. apply lookup_insert_eq. }
  split; [exact Hl|]. split.
  - now rewrite Hl.
  - exists d. rewrite Hact, lookup_insert_eq. auto.
Qed.

(** The same report, at the same time, a second time. *)
Lemma report_twice st data now sid entry :
  r_session_id data = Some sid ->
  session_tokens st !! sid = Some entry ->
  r_token data = Some (token entry) ->
  state (receive_detection_report
           (state (receive_detection_report st data now)) data now)
  = state (receive_detection_report st data now).
Proof.
  intros Hs He Ht. unfold receive_detection_report at 2 3.
  rewrite Hs, He, Ht.
  rewrite bool_decide_eq_false_2 by (intros H; now apply H).
  unfold receive_detection_report. cbn [state session_tokens].
  rewrite Hs, lookup_insert_eq. cbn [token set_tok_status]. rewrite Ht.
  rewrite bool_decide_eq_false_2 by (intros H; now apply H).
  cbn. now rewrite !insert_insert_eq.
Qed.

(** C3, as stated, fails: against a registry that holds Alice's session,
    a report with an unknown id and a report with her id and a wrong token
    are both answered with 401, but with different bodies. *)
Lemma C3_two_rejections_differ :
  let st := serve initial [alice_created] in
  let unknown_id := report_of "s2" "t1" 0.9%Q in
  let wrong_token := report_of "s1" "t2" 0.9%Q in
  ~ authenticates st unknown_id
  /\ ~ authenticates st wrong_token
  /\ response (receive_detection_report st unknown_id minute)
     = {| body := Error "Invalid session"; code := 401 |}
  /\ response (receive_detection_report st wrong_token minute)
     = {| body := Error "Invalid token"; code := 401 |}
  /\ response (receive_detection_report st unknown_id minute)
     <> response (receive_detection_report st wrong_token minute).
Proof.
  cbv zeta. split; [|split; [|split; [|split]]].
  - intros (sid & e & Hs & He & _). injection Hs as <-. vm_compute in He. discriminate.
  - intros (sid & e & Hs & He & Ht). injection Hs as <-. vm_compute in He.
    injection He as <-. vm_compute in Ht. discriminate.
  - vm_compute. reflexivity.
  - vm_compute. reflexivity.
  - vm_compute. discriminate.
Qed.

(** C3, amended.  A report whose session id is unknown or whose token is
    not the session's is answered with 401 in both cases; the body is
    [{'error': 'Invalid session'}] when the id is unknown and
    [{'error': 'Invalid token'}] when the id is known and the token
    wrong. *)
Theorem C3_rejection_names_its_cause
    (st : State) (data : ReportData) (now : Z) :
  ~ authenticates st data ->
  response (receive_detection_report st data now)
  = {| body := Error (if known_session st data then "Invalid token"
                      else "Invalid session");
       code := 401 |}.
Proof. intros Hn. now rewrite report_rejected. Qed.

(** A report with an id no session has. *)
Lemma C3_rejection_names_its_cause_witness :
  response (receive_detection_report (serve initial [alice_created])
              (report_of "s2" "t1" 0.9%Q) minute)
  = {| body := Error "Invalid session"; code := 401 |}.
Proof.
  apply (C3_rejection_names_its_cause (serve initial [alice_created])
           (report_of "s2" "t1" 0.9%Q) minute).
  intros (sid & e & Hs & He & _). injection Hs as <-.
  vm_compute in He. discriminate.
Defined.

(** C9.  A report that fails authentication is answered with 401, leaves
    both dicts as they were and emits no event. *)
Theorem C9_rejected_report_changes_nothing
    (st : State) (data : ReportData) (now : Z) :
  ~ authenticates st data ->
  code (response (receive_detection_report st data now)) = 401%nat
  /\ state (receive_detection_report st data now) = st
  /\ emitted (receive_detection_report st data now) = [].
Proof. intros Hn. rewrite report_rejected by assumption. repeat split. Qed.

(** A report for Alice's session with the wrong token. *)
Lemma C9_rejected_report_changes_nothing_witness :
  code (response (receive_detection_report (serve initial [alice_created])
                    (report_of "s1" "t2" 0.9%Q) minute)) = 401%nat
  /\ state (receive_detection_report (serve initial [alice_created])
              (report_of "s1" "t2" 0.9%Q) minute)
     = serve initial [alice_created]
  /\ emitted (receive_detection_report (serve initial [alice_created])
                (report_of "s1" "t2" 0.9%Q) minute) = [].
Proof.
  apply (C9_rejected_report_changes_nothing (serve initial [alice_created])
           (report_of "s1" "t2" 0.9%Q) minute).
  intros (sid & e & Hs & He & Ht). injection Hs as <-.
  vm_compute in He. injection He as <-. vm_compute in Ht. discriminate.
Defined.

(** C6.  A report that authenticates is answered with 200 and leaves its
    session [active], its record holding the fields of the report and
    [last_update] the time of arrival; a second report of the session does
    the same with its own fields and time, the status staying [active];
    and the same report arriving twice at the same time leaves what it
    left the first time. *)
Theorem C6_ingest_activates_and_overwrites
    (st : State) (data data' : ReportData) (now now' : Z) :
  authenticates st data ->
  r_session_id data' = r_session_id data ->
  r_token data' = r_token data ->
  exists sid,
    r_session_id data = Some sid
    /\ let first := receive_detection_report st data now in
       let second := receive_detection_report (state first) data' now' in
       code (response first) = 200%nat
       /\ ingested (state first) sid data now
       /\ code (response second) = 200%nat
       /\ ingested (state second) sid data' now'
       /\ state (receive_detection_report (state first) data now) = state first.
Proof.
  intros (sid & entry & Hs & He & Ht) Hs' Ht'. exists sid. split; [exact Hs|].
  intros first second.
  destruct (report_ingested st data now sid entry Hs He Ht) as (Hr & Htok & Hi).
  fold first in Hr, Htok, Hi.
  rewrite Hs in Hs'. rewrite Ht in Ht'.
  destruct (report_ingested (state first) data' now' sid
              (set_tok_status active entry) Hs' Htok Ht') as (Hr' & _ & Hi').
  fold second in Hr', Hi'.
  rewrite Hr, Hr'. split; [reflexivity|]. split; [exact Hi|].
  split; [reflexivity|]. split; [exact Hi'|].
  now apply report_twice with sid entry.
Qed.

(** Two reports of Alice's session, one minute apart. *)
Lemma C6_ingest_activates_and_overwrites_witness :
  exists sid,
    sid = "s1"%string
    /\ ingested
         (state (receive_detection_report
                   (state (receive_detection_report
                             (serve initial [alice_created])
                             (report_of "s1" "t1" 0.9%Q) minute))
                   (report_of "s1" "t1" 0.2%Q) (2 * minute)))
         sid (report_of "s1" "t1" 0.2%Q) (2 * minute).
Proof.
  destruct (C6_ingest_activates_and_overwrites (serve initial [alice_created])
              (report_of "s1" "t1" 0.9%Q) (report_of "s1" "t1" 0.2%Q)
              minute (2 * minute))
    as (sid & Hs & _ & _ & _ & Hi & _).
  - exists "s1"%string, {| token := "t1"; tok_candidate_name := "Alice";
                           created_at := 0; tok_status := waiting |}.
    split; [reflexivity|]. split; reflexivity.
  - reflexivity.
  - reflexivity.
  - exists sid. split; [|exact Hi]. cbn in Hs. congruence.
Defined.

Lemma initial_consistent : consistent initial.
Proof.
  split; cbn.
  - intros sid d H. now rewrite lookup_empty in H.
  - intros sid. rewrite !lookup_empty. split.
    + intros [? ?]. discriminate.
    + intros (e & H & _). discriminate.
  - intros sid e H. now rewrite lookup_empty in H.
Qed.

(** Every handler preserves [consistent], given a fresh draw. *)
Lemma handle_consistent st rq :
  consistent st -> fresh_id st rq -> consistent (state (handle st rq)).
Proof.
  intros [Hnw Hiff Htok] Hfresh.
  destruct rq as [name sid tok now|data now|now|sid|sid now]; cbn.
  - (* create_session *)
    cbn in Hfresh. split; cbn; [exact Hnw| |].
    + intros sid'. rewrite Hiff. lookup_at sid sid'; [|reflexivity].
      rewrite Hfresh. split; intros (e & H & H'); simplify_eq.
    + intros sid' e. lookup_at sid sid'; [|apply Htok].
      intros [= <-]. now left.
  - (* receive_detection_report *)
    destruct (report_cases st data now)
      as [[_ ->]|(sid & entry & d & Hs & He & Ht & Hd & ->)]; [now split|].
    split; cbn.
    + intros sid' d'. lookup_at sid sid'; [|apply Hnw].
      intros [= <-]. now rewrite Hd.
    + intros sid'. lookup_at sid sid'; [|apply Hiff].
      split; [|eauto]. intros _. eexists. split; reflexivity.
    + intros sid' e. lookup_at sid sid'; [|apply Htok].
      intros [= <-]. now right.
  - (* get_all_sessions *)
    split; cbn; [| |exact Htok].
    + intros sid d. rewrite lookup_fmap.
      destruct (active_sessions st !! sid) as [d0|] eqn:E; [|discriminate].
      cbn. intros [= <-]. unfold mark_stale.
      destruct (_ <? _); [discriminate|]. now apply (Hnw sid).
    + intros sid. rewrite <- Hiff, lookup_fmap. apply fmap_is_Some.
  - (* get_session_details *)
    unfold get_session_details.
    destruct (active_sessions st !! sid); now split.
  - (* end_session *)
    unfold end_session.
    destruct (active_sessions st !! sid) as [d|] eqn:E; [|now split].
    split; cbn; [| |exact Htok].
    + intros sid' d'. lookup_at sid sid'; [|apply Hnw].
      intros [= <-]. discriminate.
    + intros sid'. rewrite <- Hiff. lookup_at sid sid'; [|reflexivity].
      rewrite E. split; eauto.
Qed.

Lemma serve_app st rqs rqs' : serve st (rqs ++ rqs') = serve (serve st rqs) rqs'.
Proof. apply fold_left_app. Qed.

Lemma all_fresh_app st rqs rqs' :
  all_fresh st (rqs ++ rqs') <-> all_fresh st rqs /\ all_fresh (serve st rqs) rqs'.
Proof.
  revert st. induction rqs as [|rq rqs IH]; intros st; cbn.
  - tauto.
  - rewrite IH. tauto.
Qed.

Lemma serve_consistent st rqs :
  consistent st -> all_fresh st rqs -> consistent (serve st rqs).
Proof.
  revert st. induction rqs as [|rq rqs IH]; intros st Hc Hf; cbn.
  - exact Hc.
  - destruct Hf as [Hf Hfs]. apply IH; [|exact Hfs]. now apply handle_consistent.
Qed.

(** One request moves the status of a session by [status_move]. *)
Lemma handle_status_move st rq sid :
  consistent st -> fresh_id st rq ->
  status_move st sid rq (session_status st sid)
    (session_status (state (handle st rq)) sid).
Proof.
  intros [Hnw Hiff Htok] Hfresh.
  destruct rq as [name sid' tok now|data now|now|sid'|sid' now]; cbn.
  - (* create_session *)
    cbn in Hfresh. unfold session_status; cbn.
    destruct (active_sessions st !! sid) as [d|] eqn:E; [constructor|].
    lookup_at sid' sid; [rewrite Hfresh|]; now constructor.
  - (* receive_detection_report *)
    destruct (report_cases st data now)
      as [[_ ->]|(sid' & entry & d & Hs & He & Ht & Hd & ->)]; [constructor|].
    unfold session_status at 2; cbn.
    lookup_at sid' sid; [|constructor].
    rewrite Hd. unfold session_status. rewrite He.
    destruct (active_sessions st !! sid');
      (constructor; [assumption|now exists sid', entry]).
  - (* get_all_sessions *)
    unfold session_status; cbn. rewrite lookup_fmap.
    destruct (active_sessions st !! sid) as [d|] eqn:E; cbn; [|constructor].
    unfold mark_stale. destruct (_ <? _) eqn:Hstale; cbn; [|constructor].
    apply move_stale with d; [now apply (Hnw sid)|exact E|].
    now apply Z.ltb_lt.
  - (* get_session_details *)
    unfold get_session_details.
    destruct (active_sessions st !! sid'); constructor.
  - (* end_session *)
    unfold end_session.
    destruct (active_sessions st !! sid') as [d|] eqn:E; [|constructor].
    unfold session_status; cbn.
    lookup_at sid' sid; [|constructor].
    rewrite E. cbn. constructor. now apply (Hnw sid').
Qed.

Lemma status_move_not_waiting st sid rq s s0 :
  status_move st sid rq (Some s0) s -> s0 <> waiting ->
  exists s', s = Some s' /\ s' <> waiting.
Proof.
  intros H Hs. inversion H; subst; eauto; eexists; (split; [reflexivity|]);
    discriminate.
Qed.

(** Once out of [waiting], never back. *)
Lemma serve_not_waiting st rqs sid s :
  consistent st -> all_fresh st rqs ->
  session_status st sid = Some s -> s <> waiting ->
  exists s', session_status (serve st rqs) sid = Some s' /\ s' <> waiting.
Proof.
  revert st s. induction rqs as [|rq rqs IH]; intros st s Hc Hf Hs Hnw; cbn.
  - eauto.
  - destruct Hf as [Hf Hfs].
    pose proof (handle_status_move st rq sid Hc Hf) as Hm. rewrite Hs in Hm.
    destruct (status_move_not_waiting _ _ _ _ _ Hm Hnw) as (s' & Hs' & Hnw').
    eapply IH; eauto using handle_consistent.
Qed.

(** A report that passes the token check leaves its session [active],
    whatever the status was. *)
Lemma report_makes_active st data now sid :
  r_session_id data = Some sid -> authenticates st data ->
  session_status (state (receive_detection_report st data now)) sid
  = Some active.
Proof.
  intros Hs (sid' & entry & Hs' & He & Ht).
  assert (sid' = sid) as -> by congruence.
  destruct (report_accepted st data now sid entry Hs He Ht)
    as (_ & _ & d & Hact & _ & Hst & _).
  unfold session_status. rewrite Hact, lookup_insert_eq. now rewrite Hst.
Qed.

(** C4, as stated, fails: Alice's session is created, reports once and is
    ended; a report that arrives afterwards with the right token finds it
    [ended] and leaves it [active]. *)
Lemma C4_ended_session_made_active_again :
  session_status alice_ended "s1" = Some ended
  /\ authenticates alice_ended (report_of "s1" "t1" 0.2%Q)
  /\ session_status
       (state (receive_detection_report alice_ended
                 (report_of "s1" "t1" 0.2%Q) (3 * minute)))
       "s1" = Some active.
Proof.
  split; [|split].
  - vm_compute. reflexivity.
  - eexists "s1"%string, _. split; [reflexivity|]. split; vm_compute; reflexivity.
  - vm_compute. reflexivity.
Qed.

(** C4, amended.  From the empty registry, along any sequence of requests
    whose [create_session] draws are unused ids, each request leaves the
    status of a session as it is or moves it by [status_move]: the
    creation of that session gives [waiting]; a report for that session
    that passes the token check gives [active] from any status, [ended]
    and [disconnected] included; the end of that session gives [ended] and
    a list query later than five minutes after the last update of its
    record gives [disconnected], both from any status but [waiting].  A
    report for the session that passes the token check always leaves it
    [active].  A session that has left [waiting] never returns to it. *)
Theorem C4_status_moves_by_request
    (rqs : list Request) (rq : Request) (rqs' : list Request) (sid : string) :
  all_fresh initial (rqs ++ rq :: rqs') ->
  let st := serve initial rqs in
  status_move st sid rq (session_status st sid)
    (session_status (state (handle st rq)) sid)
  /\ (forall data now,
        rq = Report data now ->
        r_session_id data = Some sid -> authenticates st data ->
        session_status (state (handle st rq)) sid = Some active)
  /\ (forall s, session_status st sid = Some s -> s <> waiting ->
      exists s', session_status (serve initial (rqs ++ rq :: rqs')) sid = Some s'
                 /\ s' <> waiting).
Proof.
  intros Hf st. apply all_fresh_app in Hf. destruct Hf as [Hf Hf'].
  assert (Hc : consistent st) by (apply serve_consistent; auto using initial_consistent).
  split; [|split].
  - apply handle_status_move; [assumption|]. now destruct Hf'.
  - intros data now -> Hs Ha. now apply report_makes_active.
  - intros s Hs Hnw. rewrite serve_app. fold st. now apply serve_not_waiting with s.
Qed.

(** Alice's session, created, reported, ended, and reported again: the
    late report moves it from [ended] to [active], not back to
    [waiting]. *)
Lemma C4_status_moves_by_request_witness :
  status_move alice_ended "s1"
    (Report (report_of "s1" "t1" 0.2%Q) (3 * minute))
    (session_status alice_ended "s1")
    (session_status
       (state (handle alice_ended (Report (report_of "s1" "t1" 0.2%Q) (3 * minute))))
       "s1")
  /\ session_status alice_ended "s1" = Some ended
  /\ session_status
       (state (handle alice_ended (Report (report_of "s1" "t1" 0.2%Q) (3 * minute))))
       "s1" = Some active
  /\ exists s',
       session_status
         (serve alice_ended [Report (report_of "s1" "t1" 0.2%Q) (3 * minute)])
         "s1" = Some s'
       /\ s' <> waiting.
Proof.
  destruct (C4_status_moves_by_request
              [alice_created; Report (report_of "s1" "t1" 0.9%Q) minute;
               EndSession "s1" (2 * minute)]
              (Report (report_of "s1" "t1" 0.2%Q) (3 * minute)) [] "s1"
              (conj eq_refl (conj I (conj I (conj I I)))))
    as (Hmove & Hactive & Hnever).
  split; [exact Hmove|]. split; [reflexivity|]. split.
  - apply (Hactive _ _ eq_refl eq_refl).
    eexists "s1"%string, _. split; [reflexivity|]. split; vm_compute; reflexivity.
  - apply (Hnever ended); [reflexivity|discriminate].
Defined.

Lemma mark_stale_stale now d :
  five_minutes < now - last_update d ->
  mark_stale now d = set_status disconnected d.
Proof. unfold mark_stale. intros H. apply Z.ltb_lt in H. now rewrite H. Qed.

Lemma mark_stale_fresh now d :
  now - last_update d <= five_minutes -> mark_stale now d = d.
Proof. unfold mark_stale. intros H. apply Z.ltb_ge in H. now rewrite H. Qed.

(** C5.  The listing of [GET /api/sessions] shows every session whose
    [last_update] is more than five minutes before the query as
    [disconnected], and every session within the five minutes as it was
    stored, its status unchanged. *)
Theorem C5_stale_sessions_listed_disconnected
    (st : State) (now : Z) (sid : string) (d : SessionData) :
  active_sessions st !! sid = Some d ->
  exists listing d',
    response (get_all_sessions st now)
    = {| body := Sessions listing (size listing); code := 200 |}
    /\ listing !! sid = Some d'
    /\ (five_minutes < now - last_update d ->
        d' = set_status disconnected d /\ status d' = disconnected)
    /\ (now - last_update d <= five_minutes -> d' = d).
Proof.
  intros Hd. exists (mark_stale now <$> active_sessions st), (mark_stale now d).
  split; [reflexivity|]. split.
  - now rewrite lookup_fmap, Hd.
  - split.
    + intros H. now rewrite mark_stale_stale.
    + apply mark_stale_fresh.
Qed.

(** A report at time [0], the query at [4:59]: the session is listed
    [active]. *)
Lemma C5_stale_sessions_listed_disconnected_witness :
  exists listing d',
    response (get_all_sessions reported_at_zero (4 * minute + 59 * 1000000))
    = {| body := Sessions listing (size listing); code := 200 |}
    /\ listing !! "s1" = Some d'
    /\ status d' = active.
Proof.
  destruct (C5_stale_sessions_listed_disconnected reported_at_zero
              (4 * minute + 59 * 1000000) "s1"
              {| candidate_name := "Alice"; last_update := 0;
                 detection_score := 0.9; alerts := [];
                 process_score := 0.9; audio_score := 0;
                 behavior_score := 0; suspicious_processes := [];
                 status := active |} eq_refl)
    as (listing & d' & Hr & Hl & _ & Hfresh).
  exists listing, d'. split; [exact Hr|]. split; [exact Hl|].
  rewrite Hfresh; [reflexivity|]. vm_compute. discriminate.
Defined.

(** The sessions [active_sessions] lists are those that left [waiting]. *)
Lemma consistent_dom st :
  consistent st -> dom (active_sessions st) = dom (reported st).
Proof.
  intros [Hnw Hiff Htok]. apply set_eq. intros sid.
  rewrite !elem_of_dom, Hiff. unfold reported. split.
  - intros (e & He & Ha). exists e. apply map_lookup_filter_Some.
    split; [exact He|]. cbn. now rewrite Ha.
  - intros [e He]. apply map_lookup_filter_Some in He. destruct He as [He Hw].
    exists e. split; [exact He|]. cbn in Hw.
    destruct (Htok sid e He); [contradiction|assumption].
Qed.

Lemma consistent_size st :
  consistent st -> size (active_sessions st) = size (reported st).
Proof. intros Hc. now rewrite <- !size_dom, consistent_dom. Qed.

(** C10.  From the empty registry, along any sequence of requests whose
    [create_session] draws are unused ids, a session whose status is
    [waiting] is not in the listing of [GET /api/sessions], whose
    [total_sessions] counts the sessions that have left [waiting] only;
    the detail query answers 404 for it; and [end_session] answers 404 for
    it, changes nothing and emits nothing. *)
Theorem C10_waiting_session_is_invisible
    (rqs : list Request) (sid : string) (entry : TokenEntry) (now : Z) :
  all_fresh initial rqs ->
  let st := serve initial rqs in
  session_tokens st !! sid = Some entry ->
  tok_status entry = waiting ->
  (exists listing,
      response (get_all_sessions st now)
      = {| body := Sessions listing (size (reported st)); code := 200 |}
      /\ listing !! sid = None
      /\ reported st !! sid = None)
  /\ response (get_session_details st sid) = not_found
  /\ end_session st sid now
     = {| response := not_found; state := st; emitted := [] |}.
Proof.
  intros Hf st He Hw.
  assert (Hc : consistent st) by (apply serve_consistent; auto using initial_consistent).
  assert (Hnone : active_sessions st !! sid = None).
  { destruct (active_sessions st !! sid) as [d|] eqn:E; [|reflexivity].
    destruct (proj1 (active_iff_reported st Hc sid)) as (e & He' & Ha); [eauto|].
    rewrite He in He'. injection He' as <-. rewrite Hw in Ha. discriminate. }
  split; [|split].
  - exists (mark_stale now <$> active_sessions st). split; [|split].
    + unfold get_all_sessions. cbn.
      now rewrite map_size_fmap, consistent_size.
    + now rewrite lookup_fmap, Hnone.
    + apply map_lookup_filter_None. right. intros e He'. cbn.
      rewrite He in He'. injection He' as <-. intros Hn. now apply Hn.
  - unfold get_session_details. now rewrite Hnone.
  - unfold end_session. now rewrite Hnone.
Qed.

(** Alice's session, just created. *)
Lemma C10_waiting_session_is_invisible_witness :
  (exists listing,
      response (get_all_sessions (serve initial [alice_created]) minute)
      = {| body := Sessions listing
                     (size (reported (serve initial [alice_created])));
           code := 200 |}
      /\ listing !! "s1" = None
      /\ reported (serve initial [alice_created]) !! "s1" = None)
  /\ response (get_session_details (serve initial [alice_created]) "s1")
     = not_found
  /\ end_session (serve initial [alice_created]) "s1" minute
     = {| response := not_found; state := serve initial [alice_created];
          emitted := [] |}.
Proof.
  apply (C10_waiting_session_is_invisible [alice_created] "s1"
           {| token := "t1"; tok_candidate_name := "Alice"; created_at := 0;
              tok_status := waiting |} minute).
  - split; [reflexivity|exact I].
  - reflexivity.
  - reflexivity.
Defined.

End ServerFacts.

(** * Properties of the monitors, the loops and the reports *)

(** ** More on the rule-based classifier *)

Module ClassifierRules.

Import Classifier PyFacts ClassifierFacts Fusion.
Local Open Scope Q_scope.

(** Case analysis on every [max] and [min] of the goal. *)
Ltac minmax_cases :=
  repeat match goal with
    | |- context [Py.max2 ?x ?y] =>
        destruct (max2_cases x y) as [[? ->]|[? ->]]
    | |- context [Py.min2 ?x ?y] =>
        destruct (min2_cases x y) as [[? ->]|[? ->]]
    end.

(** Case analysis on a comparison, keeping what it says as an inequality. *)
Ltac gt_cases x y :=
  let E := fresh "E" in
  destruct (Py.gt x y) eqn:E;
  [apply gt_true in E | apply gt_false in E].

Lemma max3_bounds p a b :
  p <= Py.max3 p a b /\ a <= Py.max3 p a b /\ b <= Py.max3 p a b
  /\ (Py.max3 p a b = p \/ Py.max3 p a b = a \/ Py.max3 p a b = b).
Proof.
  unfold Py.max3.
  destruct (max2_cases p a) as [[? E1]|[? E1]]; rewrite E1;
    [destruct (max2_cases a b) as [[? ->]|[? ->]]
    |destruct (max2_cases p b) as [[? ->]|[? ->]]];
    repeat split; auto; lra.
Qed.

Lemma rule_based_floor (features : gmap string Q) :
  0.9 < get features "process_score" 0.0
  \/ 0.9 < get features "audio_score" 0.0
  \/ 0.9 < get features "behavior_score" 0.0 ->
  0.85 <= _rule_based_prediction features.
Proof.
  unfold _rule_based_prediction.
  generalize (get features "process_score" 0.0) as p.
  generalize (get features "audio_score" 0.0) as a.
  generalize (get features "behavior_score" 0.0) as b.
  intros b a p H. cbv zeta.
  destruct (max3_bounds p a b) as (Hp & Ha & Hb & _).
  gt_cases (Py.max3 p a b) 0.9; [|lra].
  destruct (2 <=? _)%nat; minmax_cases; lra.
Qed.

(** Whatever the other two scores, one score above [0.9] gives a
    prediction of at least [0.85]. *)
Theorem one_very_high_score_floors_prediction (features : gmap string Q) :
  0.9 < get features "process_score" 0.0
  \/ 0.9 < get features "audio_score" 0.0
  \/ 0.9 < get features "behavior_score" 0.0 ->
  0.85 <= predict (init None) features.
Proof. rewrite predict_untrained. apply rule_based_floor. Qed.

(** Only the audio score is high. *)
Lemma one_very_high_score_floors_prediction_witness :
  0.85 <= predict (init None) (features_of 0.2 0.95 0.1 0).
Proof.
  apply one_very_high_score_floors_prediction.
  right. left. vm_compute. reflexivity.
Defined.

(** The comparisons are strict: with no score above [0.9] and fewer than
    two above [0.6], no boost fires and the prediction is the weighted
    sum itself. *)
Theorem moderate_scores_are_only_weighted (features : gmap string Q) :
  get features "process_score" 0.0 <= 0.9 ->
  get features "audio_score" 0.0 <= 0.9 ->
  get features "behavior_score" 0.0 <= 0.9 ->
  at_least_two_exceed 0.6
    (get features "process_score" 0.0) (get features "audio_score" 0.0)
    (get features "behavior_score" 0.0) = false ->
  predict (init None) features = weighted_sum features.
Proof.
  rewrite predict_untrained. unfold _rule_based_prediction, weighted_sum.
  generalize (get features "process_score" 0.0) as p.
  generalize (get features "audio_score" 0.0) as a.
  generalize (get features "behavior_score" 0.0) as b.
  intros b a p Hp Ha Hb H2. cbv zeta.
  destruct (max3_bounds p a b) as (_ & _ & _ & Hm).
  gt_cases (Py.max3 p a b) 0.9; [destruct Hm as [Hm|[Hm|Hm]]; rewrite Hm in *; lra|].
  rewrite count3, !gt_exceeds. unfold at_least_two_exceed in H2.
  destruct (exceeds 0.6 p), (exceeds 0.6 a), (exceeds 0.6 b);
    try discriminate; reflexivity.
Qed.

(** A process score of exactly [0.9] does not reach the floor. *)
Lemma moderate_scores_are_only_weighted_witness :
  predict (init None) (features_of 0.9 0.2 0.1 0)
  = weighted_sum (features_of 0.9 0.2 0.1 0).
Proof.
  apply moderate_scores_are_only_weighted;
    try (vm_compute; discriminate); reflexivity.
Defined.


(** While the weighted sum is at most [1], the boosts never lower it, and
    they add at most [0.15] to the larger of it and [0.85]. *)
Theorem boosts_never_lower (features : gmap string Q) :
  weighted_sum features <= 1 ->
  weighted_sum features <= predict (init None) features
  /\ predict (init None) features <= Qmax (weighted_sum features) 0.85 + 0.15.
Proof.
  rewrite predict_untrained. unfold _rule_based_prediction, weighted_sum.
  generalize (get features "process_score" 0.0) as p.
  generalize (get features "audio_score" 0.0) as a.
  generalize (get features "behavior_score" 0.0) as b.
  intros b a p H. cbv zeta.
  change Qmax with Py.max2.
  destruct (Py.gt (Py.max3 p a b) 0.9); destruct (2 <=? _)%nat;
    minmax_cases; lra.
Qed.

(** Two scores of [0.7]: the second boost alone. *)
Lemma boosts_never_lower_witness :
  weighted_sum (features_of 0.7 0.7 0.0 0)
  <= predict (init None) (features_of 0.7 0.7 0.0 0)
  /\ predict (init None) (features_of 0.7 0.7 0.0 0)
     <= Qmax (weighted_sum (features_of 0.7 0.7 0.0 0)) 0.85 + 0.15.
Proof.
  apply boosts_never_lower. vm_compute. discriminate.
Defined.

Lemma gt_mono x y t : x <= y -> Py.gt x t = true -> Py.gt y t = true.
Proof. rewrite !gt_true. intros. lra. Qed.

Lemma max3_mono p a b p' a' b' :
  p <= p' -> a <= a' -> b <= b' -> Py.max3 p a b <= Py.max3 p' a' b'.
Proof.
  intros Hp Ha Hb.
  destruct (max3_bounds p a b) as (_ & _ & _ & Hm).
  destruct (max3_bounds p' a' b') as (Hp' & Ha' & Hb' & _).
  destruct Hm as [-> | [-> | ->]]; lra.
Qed.

(** The two boosts, as functions of the weighted sum and of what the
    comparisons said. *)
Lemma rule_based_staged features :
  let p := get features "process_score" 0.0 in
  let a := get features "audio_score" 0.0 in
  let b := get features "behavior_score" 0.0 in
  let c := if Py.gt (Py.max3 p a b) 0.9 then Py.max2 (weighted_sum features) 0.85
           else weighted_sum features in
  _rule_based_prediction features
  = if (2 <=? Nat.b2n (Py.gt p 0.6) + Nat.b2n (Py.gt a 0.6) + Nat.b2n (Py.gt b 0.6))%nat
    then Py.min2 1.0 (c + 0.15) else c.
Proof. cbv zeta. unfold _rule_based_prediction. now rewrite count3. Qed.

(** Raising any of the three scores never lowers the prediction, as long
    as the weighted sum of the raised scores is at most [1]. *)
Theorem prediction_is_monotone (features features' : gmap string Q) :
  get features "process_score" 0.0 <= get features' "process_score" 0.0 ->
  get features "audio_score" 0.0 <= get features' "audio_score" 0.0 ->
  get features "behavior_score" 0.0 <= get features' "behavior_score" 0.0 ->
  weighted_sum features' <= 1 ->
  predict (init None) features <= predict (init None) features'.
Proof.
  rewrite !predict_untrained, !rule_based_staged. cbv zeta. unfold weighted_sum.
  generalize (get features "process_score" 0.0) as p.
  generalize (get features "audio_score" 0.0) as a.
  generalize (get features "behavior_score" 0.0) as b.
  generalize (get features' "process_score" 0.0) as p'.
  generalize (get features' "audio_score" 0.0) as a'.
  generalize (get features' "behavior_score" 0.0) as b'.
  intros b' a' p' b a p Hp Ha Hb H1.
  pose proof (gt_mono _ _ 0.9 (max3_mono _ _ _ _ _ _ Hp Ha Hb)) as Hm.
  pose proof (gt_mono _ _ 0.6 Hp) as Hp6.
  pose proof (gt_mono _ _ 0.6 Ha) as Ha6.
  pose proof (gt_mono _ _ 0.6 Hb) as Hb6.
  set (c := p * 0.4 + a * 0.35 + b * 0.25).
  set (c' := p' * 0.4 + a' * 0.35 + b' * 0.25).
  assert (Hc : c <= c') by (unfold c, c'; lra).
  fold c' in H1. clearbody c c'.
  destruct (Py.gt (Py.max3 p a b) 0.9);
    [rewrite (Hm eq_refl)|destruct (Py.gt (Py.max3 p' a' b') 0.9)];
    (destruct (Py.gt p 0.6); [rewrite (Hp6 eq_refl)|destruct (Py.gt p' 0.6)]);
    (destruct (Py.gt a 0.6); [rewrite (Ha6 eq_refl)|destruct (Py.gt a' 0.6)]);
    (destruct (Py.gt b 0.6); [rewrite (Hb6 eq_refl)|destruct (Py.gt b' 0.6)]);
    cbn [Nat.b2n Nat.add Nat.leb]; minmax_cases; lra.
Qed.

(** Two scores cross [0.6]. *)
Lemma prediction_is_monotone_witness :
  predict (init None) (features_of 0.5 0.5 0.5 0)
  <= predict (init None) (features_of 0.7 0.7 0.5 1).
Proof.
  apply prediction_is_monotone; vm_compute; discriminate.
Defined.

End ClassifierRules.

(** ** More on the session registry *)

Module RegistryFacts.

Import Server ServerFacts Credentials.
Local Open Scope Z_scope.

(** The answer to a report says whether it passed the token check. *)
Lemma report_code st data now :
  code (response (receive_detection_report st data now)) = 200%nat
  <-> authenticates st data.
Proof.
  split.
  - intros H. destruct (report_cases st data now)
      as [[Hn _]|(sid & entry & d & Hs & He & Ht & _)].
    + rewrite report_rejected in H by assumption. discriminate.
    + exists sid, entry. auto.
  - intros (sid & entry & Hs & He & Ht).
    destruct (report_accepted st data now sid entry Hs He Ht) as [-> _].
    reflexivity.
Qed.

(** [create_session] answers with the id and token it stores and leaves
    the records alone; from then on a report for that id passes the token
    check exactly when it carries that token, and is answered 401, with
    [Invalid token], exactly when it does not. *)
Theorem created_credentials_authenticate
    (st : State) (name : option string) (sid tok : string) (now : Z) :
  let out := create_session st name sid tok now in
  response out
  = {| body := Created sid tok (default "Unknown"%string name)
                 ("/download/client/" +:+ sid);
       code := 200 |}
  /\ session_tokens (state out) !! sid
     = Some {| token := tok; tok_candidate_name := default "Unknown"%string name;
               created_at := now; tok_status := waiting |}
  /\ active_sessions (state out) = active_sessions st
  /\ forall data now',
       r_session_id data = Some sid ->
       (authenticates (state out) data <-> r_token data = Some tok)
       /\ (code (response (receive_detection_report (state out) data now'))
           = 401%nat
           <-> r_token data <> Some tok)
       /\ (r_token data <> Some tok ->
           response (receive_detection_report (state out) data now')
           = {| body := Error "Invalid token"; code := 401 |}).
Proof.
  cbv zeta. split; [reflexivity|]. split; [apply lookup_insert_eq|].
  split; [reflexivity|].
  intros data now' Hs.
  assert (Ha : authenticates (state (create_session st name sid tok now)) data
               <-> r_token data = Some tok).
  { split.
    - intros (sid' & e & Hs' & He & Ht). rewrite Hs in Hs'. injection Hs' as <-.
      cbn in He. rewrite lookup_insert_eq in He. injection He as <-. exact Ht.
    - intros Ht. eexists sid, _. split; [exact Hs|]. split.
      + cbn. apply lookup_insert_eq.
      + exact Ht. }
  assert (Hk : known_session (state (create_session st name sid tok now)) data
               = true).
  { unfold known_session. rewrite Hs. apply bool_decide_eq_true_2.
    cbn. rewrite lookup_insert_eq. eauto. }
  split; [exact Ha|]. split; [split|].
  - intros Hc Ht. apply Ha in Ht.
    apply (report_code _ _ now') in Ht. rewrite Ht in Hc. discriminate.
  - intros Hn. rewrite report_rejected by (now rewrite Ha). reflexivity.
  - intros Hn. rewrite report_rejected by (now rewrite Ha).
    cbn [response]. now rewrite Hk.
Qed.

Lemma handle_keeps_credentials st rq sid e :
  fresh_id st rq ->
  session_tokens st !! sid = Some e ->
  exists e', session_tokens (state (handle st rq)) !! sid = Some e'
             /\ same_credentials e e'.
Proof.
  intros Hf He.
  destruct rq as [name sid' tok now|data now|now|sid'|sid' now]; cbn.
  - cbn in Hf. lookup_at sid' sid; [congruence|].
    exists e. repeat split. assumption.
  - destruct (report_cases st data now)
      as [[_ ->]|(sid' & entry & d & Hs & He' & Ht & Hd & ->)].
    + exists e. repeat split. assumption.
    + cbn. lookup_at sid' sid.
      * rewrite He in He'. injection He' as <-. eexists. split; [reflexivity|].
        repeat split.
      * exists e. repeat split. assumption.
  - exists e. repeat split. assumption.
  - unfold get_session_details. destruct (active_sessions st !! sid');
      exists e; repeat split; assumption.
  - unfold end_session. destruct (active_sessions st !! sid');
      exists e; repeat split; assumption.
Qed.

(** Along any sequence of requests whose draws are unused ids, the token,
    the candidate name and the creation time of a session stay what
    [create_session] made them. *)
Theorem credentials_never_change
    (st : State) (rqs : list Request) (sid : string) (e : TokenEntry) :
  all_fresh st rqs ->
  session_tokens st !! sid = Some e ->
  exists e', session_tokens (serve st rqs) !! sid = Some e'
             /\ same_credentials e e'.
Proof.
  revert st e. induction rqs as [|rq rqs IH]; intros st e Hf He; cbn.
  - exists e. repeat split. assumption.
  - destruct Hf as [Hf Hfs].
    destruct (handle_keeps_credentials st rq sid e Hf He) as (e1 & He1 & H1 & H2 & H3).
    destruct (IH _ e1 Hfs He1) as (e' & He' & H1' & H2' & H3').
    exists e'. split; [exact He'|]. repeat split; congruence.
Qed.

(** Alice's session through a report and an end. *)
Lemma credentials_never_change_witness :
  exists e',
    session_tokens alice_ended !! "s1" = Some e'
    /\ same_credentials
         {| token := "t1"; tok_candidate_name := "Alice"; created_at := 0;
            tok_status := waiting |} e'.
Proof.
  apply (credentials_never_change (serve initial [alice_created])
           [Report (report_of "s1" "t1" 0.9%Q) minute;
            EndSession "s1" (2 * minute)] "s1").
  - repeat split.
  - reflexivity.
Defined.

Lemma handle_keeps_sessions st rq sid :
  (is_Some (session_tokens st !! sid) ->
   is_Some (session_tokens (state (handle st rq)) !! sid))
  /\ (is_Some (active_sessions st !! sid) ->
      is_Some (active_sessions (state (handle st rq)) !! sid)).
Proof.
  destruct rq as [name sid' tok now|data now|now|sid'|sid' now]; cbn.
  - split; [|auto]. lookup_at sid' sid; eauto.
  - destruct (report_cases st data now)
      as [[_ ->]|(sid' & entry & d & Hs & He' & Ht & Hd & ->)]; [auto|].
    cbn. split; lookup_at sid' sid; eauto.
  - split; [auto|]. rewrite lookup_fmap. intros [d ->]. cbn. eauto.
  - unfold get_session_details. destruct (active_sessions st !! sid'); auto.
  - unfold end_session. destruct (active_sessions st !! sid') eqn:E; [|auto].
    cbn. split; [auto|]. lookup_at sid' sid; eauto.
Qed.

(** No request removes a session: the ids of both dicts only grow. *)
Theorem sessions_are_never_removed
    (st : State) (rqs : list Request) :
  dom (session_tokens st) ⊆ dom (session_tokens (serve st rqs))
  /\ dom (active_sessions st) ⊆ dom (active_sessions (serve st rqs)).
Proof.
  revert st. induction rqs as [|rq rqs IH]; intros st; cbn; [split; reflexivity|].
  destruct (IH (state (handle st rq))) as [IH1 IH2].
  split; (etrans; [|eassumption]); intros sid; rewrite !elem_of_dom;
    apply handle_keeps_sessions.
Qed.

(** A report, accepted or not, leaves the token entry and the record of
    every session but its own as they were. *)
Theorem report_touches_one_session
    (st : State) (data : ReportData) (now : Z) (other : string) :
  r_session_id data <> Some other ->
  session_tokens (state (receive_detection_report st data now)) !! other
  = session_tokens st !! other
  /\ active_sessions (state (receive_detection_report st data now)) !! other
     = active_sessions st !! other.
Proof.
  intros Hne. destruct (report_cases st data now)
    as [[_ ->]|(sid & entry & d & Hs & He & Ht & Hd & ->)]; [auto|].
  cbn. assert (sid <> other) by congruence.
  now rewrite !lookup_insert_ne.
Qed.

(** A report for Alice's session; the session [s2] is not hers. *)
Lemma report_touches_one_session_witness :
  session_tokens
    (state (receive_detection_report alice_ended
              (report_of "s1" "t1" 0.2%Q) minute)) !! "s2"
  = session_tokens alice_ended !! "s2"
  /\ active_sessions
       (state (receive_detection_report alice_ended
                 (report_of "s1" "t1" 0.2%Q) minute)) !! "s2"
     = active_sessions alice_ended !! "s2".
Proof.
  apply (report_touches_one_session alice_ended
           (report_of "s1" "t1" 0.2%Q) minute "s2").
  discriminate.
Defined.

(** Of two accepted reports of a session the later one alone decides the
    answer, the state and the events: the earlier leaves no trace. *)
Theorem last_report_wins
    (st : State) (data data' : ReportData) (now now' : Z) :
  authenticates st data ->
  r_session_id data' = r_session_id data ->
  r_token data' = r_token data ->
  receive_detection_report
    (state (receive_detection_report st data now)) data' now'
  = receive_detection_report st data' now'.
Proof.
  intros (sid & entry & Hs & He & Ht) Hs' Ht'. rewrite Hs in Hs'. rewrite Ht in Ht'.
  unfold receive_detection_report at 2. rewrite Hs, He, Ht.
  rewrite bool_decide_eq_false_2 by (intros H; now apply H).
  unfold receive_detection_report. cbn [state session_tokens active_sessions].
  rewrite Hs', He, lookup_insert_eq. cbn [token set_tok_status tok_candidate_name].
  rewrite Ht'. rewrite bool_decide_eq_false_2 by (intros H; now apply H).
  now rewrite !insert_insert_eq.
Qed.

(** Two reports of Alice's session. *)
Lemma last_report_wins_witness :
  receive_detection_report
    (state (receive_detection_report (serve initial [alice_created])
              (report_of "s1" "t1" 0.9%Q) minute))
    (report_of "s1" "t1" 0.2%Q) (2 * minute)
  = receive_detection_report (serve initial [alice_created])
      (report_of "s1" "t1" 0.2%Q) (2 * minute).
Proof.
  apply last_report_wins; [|reflexivity|reflexivity].
  exists "s1"%string, {| token := "t1"; tok_candidate_name := "Alice";
                         created_at := 0; tok_status := waiting |}.
  split; [reflexivity|]. split; reflexivity.
Defined.

(** An accepted report emits [candidate_update] with the record it
    stored, followed by [high_risk_alert] exactly when the stored score,
    [0] for a report without one, is above [0.75]. *)
Theorem accepted_report_broadcasts
    (st : State) (data : ReportData) (now : Z) :
  authenticates st data ->
  exists sid entry d,
    r_session_id data = Some sid
    /\ session_tokens st !! sid = Some entry
    /\ active_sessions (state (receive_detection_report st data now)) !! sid
       = Some d
    /\ detection_score d = default 0%Q (r_detection_score data)
    /\ emitted (receive_detection_report st data now)
       = candidate_update sid d
         :: (if Py.gt (detection_score d) 0.75%Q
             then [high_risk_alert sid (tok_candidate_name entry)
                     (detection_score d)]
             else []).
Proof.
  intros (sid & entry & Hs & He & Ht). exists sid, entry.
  unfold receive_detection_report. rewrite Hs, He, Ht.
  rewrite bool_decide_eq_false_2 by (intros H; now apply H).
  cbn. eexists. split; [reflexivity|]. split; [reflexivity|].
  split; [apply lookup_insert_eq|]. split; reflexivity.
Qed.

(** A report of [0.9] for Alice's session raises the alert. *)
Lemma accepted_report_broadcasts_witness :
  exists d,
    emitted (receive_detection_report (serve initial [alice_created])
               (report_of "s1" "t1" 0.9%Q) minute)
    = [candidate_update "s1" d; high_risk_alert "s1" "Alice" 0.9%Q].
Proof.
  destruct (accepted_report_broadcasts (serve initial [alice_created])
              (report_of "s1" "t1" 0.9%Q) minute)
    as (sid & entry & d & Hs & He & _ & Hsc & Hem).
  - exists "s1"%string, {| token := "t1"; tok_candidate_name := "Alice";
                           created_at := 0; tok_status := waiting |}.
    split; [reflexivity|]. split; reflexivity.
  - exists d. rewrite Hem, Hsc. injection Hs as <-.
    vm_compute in He. injection He as <-. reflexivity.
Defined.

Lemma mark_stale_later now now' d :
  now <= now' -> mark_stale now' (mark_stale now d) = mark_stale now' d.
Proof.
  intros Hle. unfold mark_stale at 2.
  destruct (five_minutes <? now - last_update d) eqn:E; [|reflexivity].
  apply Z.ltb_lt in E. unfold mark_stale. cbn [last_update set_status].
  assert (H : (five_minutes <? now' - last_update d) = true)
    by (apply Z.ltb_lt; lia).
  now rewrite H.
Qed.

(** A listing is answered from the state an earlier listing left exactly
    as it would have been without it. *)
Theorem listing_again_later
    (st : State) (now now' : Z) :
  now <= now' ->
  get_all_sessions (state (get_all_sessions st now)) now'
  = get_all_sessions st now'.
Proof.
  intros Hle. unfold get_all_sessions. cbn [state active_sessions session_tokens].
  assert (H : mark_stale now' <$> (mark_stale now <$> active_sessions st)
              = mark_stale now' <$> active_sessions st).
  { rewrite <- map_fmap_compose. apply map_fmap_ext. intros sid d _. cbn.
    now apply mark_stale_later. }
  now rewrite H.
Qed.

(** Alice's session listed at minute 2 and at minute 7. *)
Lemma listing_again_later_witness :
  get_all_sessions (state (get_all_sessions reported_at_zero (2 * minute)))
    (7 * minute)
  = get_all_sessions reported_at_zero (7 * minute).
Proof.
  apply listing_again_later. vm_compute. discriminate.
Defined.

(** Ending a session after an accepted report answers with the score and
    the number of alerts of that report, emits the same summary, leaves
    the session [ended] and the token entries untouched. *)
Theorem end_after_report
    (st : State) (data : ReportData) (now now' : Z) :
  authenticates st data ->
  exists sid entry,
    r_session_id data = Some sid
    /\ session_tokens st !! sid = Some entry
    /\ let st' := state (receive_detection_report st data now) in
       let summary :=
         {| fr_session_id := sid;
            fr_candidate_name := tok_candidate_name entry;
            final_score := default 0%Q (r_detection_score data);
            total_alerts := length (default [] (r_alerts data));
            ended_at := now' |} in
       response (end_session st' sid now') = {| body := Ended summary; code := 200 |}
       /\ emitted (end_session st' sid now') = [session_ended summary]
       /\ session_status (state (end_session st' sid now')) sid = Some ended
       /\ session_tokens (state (end_session st' sid now')) = session_tokens st'.
Proof.
  intros (sid & entry & Hs & He & Ht). exists sid, entry.
  split; [exact Hs|]. split; [exact He|]. cbv zeta.
  destruct (report_accepted st data now sid entry Hs He Ht)
    as (_ & _ & d & Hact & Hname & Hst & Hlu & Hscore & Hal & _).
  cbv zeta in Hact. unfold end_session. rewrite Hact, lookup_insert_eq.
  cbn [response emitted state session_tokens active_sessions].
  rewrite Hname, Hscore, Hal. repeat split.
  unfold session_status. cbn. now rewrite lookup_insert_eq.
Qed.

(** Alice's session reported at minute 1 and ended at minute 2. *)
Lemma end_after_report_witness :
  exists summary,
    response (end_session
                (state (receive_detection_report (serve initial [alice_created])
                          (report_of "s1" "t1" 0.9%Q) minute))
                "s1" (2 * minute))
    = {| body := Ended summary; code := 200 |}
    /\ final_score summary = 0.9%Q /\ total_alerts summary = 0%nat.
Proof.
  destruct (end_after_report (serve initial [alice_created])
              (report_of "s1" "t1" 0.9%Q) minute (2 * minute))
    as (sid & entry & Hs & He & Hr & _).
  - exists "s1"%string, {| token := "t1"; tok_candidate_name := "Alice";
                           created_at := 0; tok_status := waiting |}.
    split; [reflexivity|]. split; reflexivity.
  - injection Hs as <-. eexists. split; [exact Hr|]. split; reflexivity.
Defined.

End RegistryFacts.

(** ** The process monitor *)

Module ProcessFacts.

Import PyFacts PyText ProcessMonitor.

Lemma append_cons c s t : String c s +:+ t = String c (s +:+ t).
Proof. reflexivity. Qed.

Lemma append_nil t : "" +:+ t = t.
Proof. reflexivity. Qed.

Lemma prefix_spec sub s :
  String.prefix sub s = true <-> exists after, s = sub +:+ after.
Proof.
  revert s. induction sub as [|c sub IH]; intros [|c' s]; cbn;
    rewrite ?append_nil.
  - split; [now exists ""%string|reflexivity].
  - split; [now exists (String c' s)|reflexivity].
  - split; [discriminate|]. intros [after H]. discriminate.
  - destruct (Ascii.ascii_dec c c') as [->|Hne].
    + rewrite IH. split; intros [after H]; exists after;
        rewrite append_cons in *; congruence.
    + split; [discriminate|]. intros [after H]. rewrite append_cons in H.
      congruence.
Qed.

Lemma contains_spec sub s : contains sub s = true <-> occurs_in sub s.
Proof.
  unfold occurs_in. induction s as [|c s IH]; cbn [contains].
  - rewrite orb_false_r, prefix_spec. split.
    + intros [after H]. exists ""%string, after. exact H.
    + intros ([|c before] & after & H); [eauto|discriminate].
  - rewrite orb_true_iff, prefix_spec, IH. split.
    + intros [[after H]|(before & after & H)].
      * exists ""%string, after. exact H.
      * exists (String c before), after. rewrite append_cons. now rewrite H.
    + intros ([|c' before] & after & H).
      * left. eauto.
      * right. rewrite append_cons in H. injection H as -> H. eauto.
Qed.

Lemma matches_spec proc keywords :
  matches proc keywords = true
  <-> exists keyword,
        keyword ∈ keywords
        /\ (occurs_in keyword (name proc) \/ occurs_in keyword (exe proc)
            \/ occurs_in keyword (cmdline proc)).
Proof.
  induction keywords as [|k ks IH]; cbn.
  - split; [discriminate|]. intros (k & H & _). now apply not_elem_of_nil in H.
  - destruct (_ || _ || _) eqn:E.
    + split; [|reflexivity]. intros _. exists k. split; [left|].
      rewrite !orb_true_iff, !contains_spec in E. tauto.
    + rewrite IH. rewrite !orb_false_iff in E. destruct E as [[E1 E2] E3].
      split.
      * intros (k' & Hin & H). exists k'. split; [now right|exact H].
      * intros (k' & Hin & H). apply elem_of_cons in Hin.
        destruct Hin as [->|Hin]; [|eauto].
        rewrite <- !contains_spec in H. rewrite E1, E2, E3 in H.
        destruct H as [H|[H|H]]; discriminate.
Qed.

Lemma scan_filter processes keywords suspicious :
  scan processes keywords suspicious
  = suspicious
    ++ (name <$> filter (fun proc => matches proc keywords = true) processes).
Proof.
  revert suspicious. induction processes as [|proc ps IH]; intros acc;
    cbn [scan].
  - rewrite filter_nil. cbn. now rewrite app_nil_r.
  - rewrite IH, filter_cons. destruct (matches proc keywords).
    + rewrite decide_True by reflexivity. rewrite fmap_cons, <- app_assoc.
      reflexivity.
    + rewrite decide_False by discriminate. reflexivity.
Qed.

(** [detect_suspicious_processes] returns the names of the processes in
    which some keyword occurs, in the name, the executable or the command
    line: one entry a process at most, and none without keywords. *)
Theorem suspicious_are_the_matching_processes
    (self : ProcessMonitor) (processes : list Process) (keywords : list string) :
  let suspicious := (detect_suspicious_processes self processes keywords).1 in
  (forall n,
      n ∈ suspicious
      <-> exists proc keyword,
            proc ∈ processes /\ name proc = n /\ keyword ∈ keywords
            /\ (occurs_in keyword (name proc) \/ occurs_in keyword (exe proc)
                \/ occurs_in keyword (cmdline proc)))
  /\ (length suspicious <= length processes)%nat
  /\ (keywords = [] -> suspicious = []).
Proof.
  cbv zeta. unfold detect_suspicious_processes. cbn [fst].
  rewrite scan_filter, app_nil_l.
  split; [|split].
  - intros n. rewrite list_elem_of_fmap. split.
    + intros (proc & -> & Hin). apply list_elem_of_filter in Hin.
      destruct Hin as [Hm Hin]. apply matches_spec in Hm.
      destruct Hm as (k & Hk & H). exists proc, k. auto.
    + intros (proc & k & Hin & <- & Hk & H). exists proc. split; [reflexivity|].
      apply list_elem_of_filter. split; [|exact Hin]. apply matches_spec. eauto.
  - rewrite length_fmap. apply length_filter.
  - intros ->. induction processes as [|p ps IH]; [reflexivity|].
    rewrite filter_cons. cbn [matches]. rewrite decide_False by discriminate.
    exact IH.
Qed.

Local Open Scope Q_scope.

Lemma detect_score self processes keywords :
  let self' := (detect_suspicious_processes self processes keywords).2 in
  0 <= suspicion_score self <= 1 ->
  0 <= suspicion_score self' <= 1
  /\ ((detect_suspicious_processes self processes keywords).1 <> [] ->
      suspicion_score self <= suspicion_score self')
  /\ ((detect_suspicious_processes self processes keywords).1 = [] ->
      suspicion_score self' <= suspicion_score self).
Proof.
  cbv zeta. unfold detect_suspicious_processes. cbn [fst snd suspicion_score].
  intros H. destruct (scan processes keywords []) as [|n l].
  - destruct (max2_cases 0.0 (suspicion_score self - 0.05)) as [[? ->]|[? ->]];
      repeat split; try lra; congruence.
  - destruct (min2_cases 1.0 (suspicion_score self + 0.2)) as [[? ->]|[? ->]];
      repeat split; try lra; congruence.
Qed.

(** Through any rounds of detection the suspicion score of the process
    monitor stays in [[0,1]]. *)
Theorem process_score_stays_in_range
    (self : ProcessMonitor) (rounds : list (list Process))
    (keywords : list string) :
  0 <= suspicion_score self <= 1 ->
  0 <= get_suspicion_score (detection_rounds self rounds keywords) <= 1.
Proof.
  unfold get_suspicion_score, detection_rounds.
  revert self. induction rounds as [|processes rounds IH]; intros self H; cbn.
  - exact H.
  - apply IH. now apply detect_score.
Qed.

(** Three rounds from a new monitor. *)
Lemma process_score_stays_in_range_witness :
  0 <= get_suspicion_score
         (detection_rounds init
            [[{| pid := 1; name := "chatgpt.exe"; exe := ""; cmdline := "" |}];
             []; []]
            ["chatgpt"%string])
    <= 1.
Proof.
  apply process_score_stays_in_range. vm_compute. split; discriminate.
Defined.

End ProcessFacts.

(** ** The audio analyzer *)

Module AudioFacts.

Import PyFacts AudioAnalyzer.

(** What [detect_from] keeps true while it walks the frames: [seen] are
    the frames before [i]. *)
Lemma detect_from_pauses seen rest in_pause pause_start pauses :
  (in_pause = true ->
   (pause_start < length seen)%nat
   /\ (forall j, (pause_start <= j < length seen)%nat ->
                 (seen ++ rest) !! j = Some false)
   /\ (pause_start = 0%nat \/ (seen ++ rest) !! (pause_start - 1)%nat = Some true)) ->
  (in_pause = false ->
   length seen = 0%nat \/ (seen ++ rest) !! (length seen - 1)%nat = Some true) ->
  Forall (is_pause (seen ++ rest)) pauses ->
  Forall (is_pause (seen ++ rest))
    (detect_from (length seen) rest in_pause pause_start pauses).
Proof.
  revert seen in_pause pause_start pauses.
  induction rest as [|speaking rest IH]; intros seen in_pause start pauses Hin Hout Hp;
    cbn [detect_from]; [exact Hp|].
  assert (Hfull : seen ++ speaking :: rest = (seen ++ [speaking]) ++ rest)
    by now rewrite <- app_assoc.
  assert (Hlen : length (seen ++ [speaking]) = S (length seen))
    by (rewrite length_app; cbn; lia).
  assert (Hhere : (seen ++ speaking :: rest) !! length seen = Some speaking).
  { rewrite lookup_app_r by lia. now rewrite Nat.sub_diag. }
  destruct speaking, in_pause; cbn [negb andb].
  - (* speech resumes: the pause is recorded *)
    rewrite Hfull, <- Hlen. apply IH; rewrite ?Hlen, <- ?Hfull.
    + discriminate.
    + intros _. right. now replace (S (length seen) - 1)%nat with (length seen) by lia.
    + apply Forall_app. split; [exact Hp|]. apply Forall_singleton.
      destruct (Hin eq_refl) as (H1 & H2 & H3). repeat split; cbn; auto.
  - (* speech goes on *)
    rewrite Hfull, <- Hlen. apply IH; rewrite ?Hlen, <- ?Hfull.
    + discriminate.
    + intros _. right. now replace (S (length seen) - 1)%nat with (length seen) by lia.
    + exact Hp.
  - (* silence goes on *)
    rewrite Hfull, <- Hlen. apply IH; rewrite ?Hlen, <- ?Hfull.
    + intros _. destruct (Hin eq_refl) as (H1 & H2 & H3). split; [lia|].
      split; [|exact H3]. intros j Hj.
      destruct (decide (j = length seen)) as [->|Hne]; [exact Hhere|].
      apply H2. lia.
    + discriminate.
    + exact Hp.
  - (* silence starts *)
    rewrite Hfull, <- Hlen. apply IH; rewrite ?Hlen, <- ?Hfull.
    + intros _. split; [lia|]. split.
      * intros j Hj. now replace j with (length seen) by lia.
      * destruct (Hout eq_refl) as [H0|H1]; [now left|right; exact H1].
    + discriminate.
    + exact Hp.
Qed.

(** Every pair [_detect_pauses] returns is a pause: silence from its
    first frame up to its second, speech at the second, and speech just
    before the first unless the recording starts there. *)
Theorem detected_pauses_are_pauses (is_speech : list bool) (p : nat * nat) :
  p ∈ _detect_pauses is_speech -> is_pause is_speech p.
Proof.
  intros Hin. unfold _detect_pauses in Hin.
  pose proof (detect_from_pauses [] is_speech false 0 []) as H.
  cbn [app length] in H. eapply Forall_forall in H; [exact H| | | |exact Hin].
  - discriminate.
  - now left.
  - constructor.
Qed.

(** Speech, two silent frames, speech. *)
Lemma detected_pauses_are_pauses_witness :
  is_pause [true; false; false; true] (1%nat, 3%nat).
Proof.
  apply detected_pauses_are_pauses. vm_compute. left.
Defined.

Lemma detect_from_silence i n in_pause pause_start pauses :
  detect_from i (replicate n false) in_pause pause_start pauses = pauses.
Proof.
  revert i in_pause pause_start.
  induction n as [|n IH]; intros i in_pause start; cbn; [reflexivity|].
  destruct in_pause; cbn; apply IH.
Qed.

Lemma detect_from_app i front back in_pause pause_start pauses :
  exists in_pause' pause_start',
    detect_from i (front ++ back) in_pause pause_start pauses
    = detect_from (i + length front) back in_pause' pause_start'
        (detect_from i front in_pause pause_start pauses).
Proof.
  revert i in_pause pause_start pauses.
  induction front as [|speaking front IH]; intros i in_pause start pauses; cbn.
  - exists in_pause, start. now rewrite Nat.add_0_r.
  - replace (i + S (length front))%nat with (S i + length front)%nat by lia.
    destruct speaking, in_pause; cbn; apply IH.
Qed.

(** Silence that lasts to the end of the window is not reported: a pause
    is recorded only when speech resumes. *)
Theorem trailing_silence_is_no_pause (is_speech : list bool) (n : nat) :
  _detect_pauses (is_speech ++ replicate n false) = _detect_pauses is_speech.
Proof.
  unfold _detect_pauses.
  destruct (detect_from_app 0 is_speech (replicate n false) false 0 [])
    as (b & s & ->).
  apply detect_from_silence.
Qed.

Local Open Scope Q_scope.

Lemma of_nat_nonneg n : 0 <= of_nat n.
Proof.
  unfold of_nat. change 0 with (inject_Z 0). rewrite <- Zle_Qle. lia.
Qed.

Lemma ratio_bounds (a b : nat) :
  (a <= b)%nat -> (0 < b)%nat -> 0 <= of_nat a / of_nat b <= 1.
Proof.
  intros Hab Hb.
  assert (H0 : 0 < of_nat b).
  { unfold of_nat. change 0 with (inject_Z 0). rewrite <- Zlt_Qlt. lia. }
  split.
  - apply Qle_shift_div_l; [exact H0|]. rewrite Qmult_0_l. apply of_nat_nonneg.
  - apply Qle_shift_div_r; [exact H0|]. rewrite Qmult_1_l.
    unfold of_nat. rewrite <- Zle_Qle. lia.
Qed.

(** The fluency score is in [[0,1]]; it is [0.0] on an empty window and
    zero on a window without speech. *)
Theorem fluency_is_a_ratio (is_speech : list bool) :
  0 <= _calculate_fluency is_speech <= 1
  /\ _calculate_fluency [] = 0.0
  /\ (Forall (fun s => s = false) is_speech ->
      _calculate_fluency is_speech == 0).
Proof.
  assert (Hc : forall l : list bool,
             (length (filter (fun s => s = true) l) <= length l)%nat)
    by (intros l; apply length_filter).
  split; [|split; [reflexivity|]].
  - unfold _calculate_fluency.
    destruct (length is_speech =? 0)%nat eqn:E; [lra|].
    apply Nat.eqb_neq in E.
    destruct (ratio_bounds _ _ (Hc is_speech) ltac:(lia)) as [Hr0 Hr1].
    set (r := of_nat _ / of_nat _) in *. cbv zeta.
    assert (Ht : 0 <= of_nat (transitions is_speech) / 10).
    { apply Qle_shift_div_l; [lra|]. rewrite Qmult_0_l. apply of_nat_nonneg. }
    destruct (min2_cases 1.0 (of_nat (transitions is_speech) / 10))
      as [[? ->]|[? ->]]; split; nra.
  - intros Hall. unfold _calculate_fluency.
    destruct (length is_speech =? 0)%nat; [reflexivity|].
    assert (Hf : filter (fun s => s = true) is_speech = []).
    { induction Hall as [|x l Hx Hl IH]; [reflexivity|].
      rewrite filter_cons, decide_False by (rewrite Hx; discriminate). exact IH. }
    rewrite Hf. cbn [length]. unfold of_nat at 1. cbn.
    unfold Qdiv. rewrite !Qmult_0_l. reflexivity.
Qed.

Lemma pause_pattern_score_high pauses fluency_score :
  0.7 < _calculate_pause_pattern_score pauses fluency_score ->
  0.8 < fluency_score.
Proof.
  unfold _calculate_pause_pattern_score.
  destruct pauses as [|p0 pauses]; [intros H; lra|].
  destruct (Py.gt 0.5 fluency_score); [intros H; lra|].
  destruct (filter _ (p0 :: pauses)); [intros H; lra|].
  destruct (Py.gt fluency_score 0.8) eqn:E; [|intros H; lra].
  intros _. now apply gt_true.
Qed.

(** The pause pattern score is [0.0], [0.3] or [0.8], and it is above
    [0.7] exactly when some pause is longer than 32 frames and the fluency
    score is above [0.8]. *)
Theorem pause_pattern_score_levels
    (pauses : list (nat * nat)) (fluency_score : Q) :
  let score := _calculate_pause_pattern_score pauses fluency_score in
  (score = 0.0 \/ score = 0.3 \/ score = 0.8)
  /\ (0.7 < score
      <-> (exists p, p ∈ pauses /\ long_pause p = true) /\ 0.8 < fluency_score).
Proof.
  cbv zeta. unfold _calculate_pause_pattern_score.
  destruct pauses as [|p0 pauses].
  { split; [now left|]. split; [intros H; lra|].
    intros [(p & Hp & _) _]. now apply not_elem_of_nil in Hp. }
  set (ps := p0 :: pauses).
  destruct (Py.gt 0.5 fluency_score) eqn:E5.
  { apply gt_true in E5. split; [now left|]. split; intros H; lra. }
  destruct (filter (fun p => long_pause p = true) ps) as [|q qs] eqn:El.
  { split; [now left|]. split; [intros H; lra|].
    intros [(p & Hp & Hl) _].
    assert (Hin : p ∈ filter (fun p => long_pause p = true) ps)
      by (apply list_elem_of_filter; auto).
    rewrite El in Hin. now apply not_elem_of_nil in Hin. }
  assert (Hq : exists p, p ∈ ps /\ long_pause p = true).
  { exists q. assert (Hin : q ∈ filter (fun p => long_pause p = true) ps)
      by (rewrite El; left).
    apply list_elem_of_filter in Hin. tauto. }
  destruct (Py.gt fluency_score 0.8) eqn:E8.
  - apply gt_true in E8. split; [auto|]. split; [auto|]. intros _. lra.
  - apply gt_false in E8. split; [auto|]. split; intros H; lra.
Qed.

Lemma update_suspicion_score_range self features self' :
  _update_suspicion_score self features = Some self' ->
  0 <= suspicion_score self' <= 1.
Proof.
  unfold _update_suspicion_score. intros H.
  destruct (features !! "pause_pattern_score") as [pp|]; [|discriminate].
  destruct (features !! "fluency_score") as [fl|]; [|discriminate].
  destruct (features !! "pitch_variation") as [pv|]; [|discriminate].
  destruct (features !! "avg_pause_duration") as [av|]; [|discriminate].
  cbn in H. injection H as <-. cbn [suspicion_score].
  destruct (Py.gt pp 0.7), (Py.gt fl 0.9), (Py.gt 50 pv),
    (Py.gt av 3.0 && Py.gt fl 0.7);
    match goal with
    | |- context [Py.min2 ?x ?y] => destruct (min2_cases x y) as [[? ->]|[? ->]]
    end; lra.
Qed.

Lemma update_defined self features :
  _update_suspicion_score self features = None ->
  is_Some (features !! "pause_pattern_score") ->
  is_Some (features !! "fluency_score") ->
  is_Some (features !! "pitch_variation") ->
  is_Some (features !! "avg_pause_duration") ->
  False.
Proof.
  unfold _update_suspicion_score. intros H [pp Hpp] [fl Hfl] [pv Hpv] [av Hav].
  rewrite Hpp, Hfl, Hpv, Hav in H. discriminate.
Qed.

Lemma extract_features self is_speech pitch centroid :
  exists features self',
    _extract_audio_features self is_speech pitch centroid
    = Some (features, self')
    /\ features <> ∅
    /\ AudioFeatures.pause_score features
       = _calculate_pause_pattern_score (_detect_pauses is_speech)
           (_calculate_fluency is_speech)
    /\ AudioFeatures.fluency_score features = _calculate_fluency is_speech
    /\ 0 <= suspicion_score self' <= 1.
Proof.
  unfold _extract_audio_features. cbv zeta.
  match goal with
  | |- context [_update_suspicion_score self ?f] => set (features := f)
  end.
  destruct (_update_suspicion_score self features) as [self'|] eqn:E.
  - exists features, self'. split; [reflexivity|]. split; [apply insert_non_empty|].
    split; [|split].
    + unfold AudioFeatures.pause_score, Classifier.get, features.
      now rewrite lookup_insert_eq.
    + unfold AudioFeatures.fluency_score, Classifier.get, features.
      now rewrite !lookup_insert_ne, lookup_insert_eq by discriminate.
    + now apply update_suspicion_score_range with self features.
  - exfalso. apply (update_defined self features) in E; [exact E|..];
      unfold features; clear E.
    + rewrite lookup_insert_eq; eauto.
    + repeat (rewrite lookup_insert_ne by discriminate).
      rewrite lookup_insert_eq; eauto.
    + repeat (rewrite lookup_insert_ne by discriminate).
      rewrite lookup_insert_eq; eauto.
    + repeat (rewrite lookup_insert_ne by discriminate).
      rewrite lookup_insert_eq; eauto.
Qed.

(** On a window with audio, [analyze_realtime_audio] returns a feature
    dict: no key is missing when the score is updated, the dict is not
    empty, the new suspicion score is in [[0,1]], and a pause pattern
    score above [0.7] comes with a fluency score above [0.8]. *)
Theorem analysis_never_fails
    (self : AudioAnalyzer) (is_speech : list bool) (pitch centroid : Q) :
  exists features self',
    analyze_realtime_audio self (Some (is_speech, pitch, centroid))
    = (Some features, self')
    /\ features <> ∅
    /\ 0 <= get_suspicion_score self' <= 1
    /\ (0.7 < AudioFeatures.pause_score features ->
        0.8 < AudioFeatures.fluency_score features).
Proof.
  destruct (extract_features self is_speech pitch centroid)
    as (features & self' & E & Hne & Hp & Hf & Hs).
  exists features, self'. unfold analyze_realtime_audio. rewrite E.
  split; [reflexivity|]. split; [exact Hne|]. split; [exact Hs|].
  rewrite Hp, Hf. apply pause_pattern_score_high.
Qed.

(** On what the analyzer returns, the audio loop of the detector and the
    audio loop of the client (with an analyzer) raise their alert in the
    same cycles. *)
Theorem detector_and_client_agree_on_analyzer_output
    (self : AudioAnalyzer) (is_speech : list bool) (pitch centroid : Q)
    (d : Detector.AIInterviewDetector) (c : Client.CandidateDetectorClient)
    (now : Z) (time_ : Q) :
  Client.audio_analyzer c = true ->
  let audio_features :=
    (analyze_realtime_audio self (Some (is_speech, pitch, centroid))).1 in
  (Detector.alerts (Detector._monitor_audio d audio_features now)
   = Detector.alerts d
   /\ Client.alerts (Client._monitor_audio c audio_features time_)
      = Client.alerts c)
  \/ (exists a a',
        Detector.alerts (Detector._monitor_audio d audio_features now)
        = Detector.alerts d ++ [a]
        /\ Client.alerts (Client._monitor_audio c audio_features time_)
           = Client.alerts c ++ [a']).
Proof.
  intros Hc.
  destruct (extract_features self is_speech pitch centroid)
    as (features & self' & E & Hne & Hp & Hf & Hs).
  unfold analyze_realtime_audio. rewrite E. cbn [fst].
  rewrite AlertFacts.client_monitor_audio, AlertFacts.detector_monitor_audio
    by assumption.
  destruct (Py.gt (AudioFeatures.pause_score features) 0.7) eqn:E7.
  - right. apply gt_true in E7. rewrite Hp in E7.
    apply pause_pattern_score_high in E7.
    rewrite <- Hf in E7. apply gt_true in E7. rename E7 into E8.
    rewrite E8. cbn. eauto.
  - left. cbn. auto.
Qed.

(** A window of silence: neither raises an alert. *)
Lemma detector_and_client_agree_on_analyzer_output_witness :
  Detector.alerts
    (Detector._monitor_audio (Detector.init (Classifier.init None))
       (analyze_realtime_audio init (Some ([false; false], 0, 0))).1 0%Z)
  = []
  /\ Client.alerts
       (Client._monitor_audio Client.started
          (analyze_realtime_audio init (Some ([false; false], 0, 0))).1 0)
     = [].
Proof.
  destruct (detector_and_client_agree_on_analyzer_output init [false; false]
              0 0 (Detector.init (Classifier.init None)) Client.started 0%Z 0
              eq_refl) as [H|(a & a' & Hd & _)].
  - exact H.
  - vm_compute in Hd. discriminate.
Defined.

(** C8.  In an audio cycle whose features carry a pause pattern score
    above [0.7], whatever the fluency score: the client, with an audio
    analyzer, appends one alert of type [AUDIO_ANOMALY] and severity
    MEDIUM; so does the detector of [main_detector.py] on every feature
    dict its collaborator, [analyze_realtime_audio], returns.  The
    detector's own test asks for a fluency score above [0.8] as well, and
    the analyzer gives a pause pattern score above [0.7] to no other
    window.  No alert of either loop is of a higher severity. *)
Theorem C8_pause_score_raises_medium_alert
    (audio_features : gmap string Q)
    (c : Client.CandidateDetectorClient) (d : Detector.AIInterviewDetector)
    (time_ : Q) (now : Z) :
  0.7 < AudioFeatures.pause_score audio_features ->
  audio_features <> ∅ ->
  Client.audio_analyzer c = true ->
  (exists a,
      Client.alerts (Client._monitor_audio c (Some audio_features) time_)
      = Client.alerts c ++ [a]
      /\ AudioFeatures.medium_audio_anomaly a)
  /\ forall (self : AudioAnalyzer) (audio : option (list bool * Q * Q)),
       (analyze_realtime_audio self audio).1 = Some audio_features ->
       exists a,
         Detector.alerts
           (Detector._monitor_audio d
              (analyze_realtime_audio self audio).1 now)
         = Detector.alerts d ++ [a]
         /\ AudioFeatures.medium_audio_anomaly a.
Proof.
  intros Hp Hne Hc. split.
  - rewrite AlertFacts.client_monitor_audio by assumption.
    apply gt_true in Hp. rewrite Hp.
    eexists. split; [reflexivity|]. split; reflexivity.
  - intros self audio Ha. rewrite Ha.
    rewrite AlertFacts.detector_monitor_audio by assumption.
    assert (Hf : 0.8 < AudioFeatures.fluency_score audio_features).
    { destruct audio as [[[is_speech pitch] centroid]|]; [|discriminate Ha].
      destruct (extract_features self is_speech pitch centroid)
        as (features & self' & E & _ & Hps & Hfs & _).
      unfold analyze_realtime_audio in Ha. rewrite E in Ha.
      cbn [fst] in Ha. injection Ha as <-.
      rewrite Hfs. rewrite Hps in Hp.
      now apply pause_pattern_score_high in Hp. }
    apply gt_true in Hp. apply gt_true in Hf. rewrite Hp, Hf. cbn [andb].
    eexists. split; [reflexivity|]. split; reflexivity.
Qed.

(** A long pause, then fluent speech: the analyzer scores the pauses
    [0.8], and the detector and the client each log one alert. *)
Lemma C8_pause_score_raises_medium_alert_witness :
  let audio_features :=
    default ∅ (analyze_realtime_audio init (Some (pause_then_speech, 0, 0))).1 in
  0.7 < AudioFeatures.pause_score audio_features
  /\ length (Client.alerts
               (Client._monitor_audio Client.started (Some audio_features) 0))
     = 1%nat
  /\ length (Detector.alerts
               (Detector._monitor_audio (Detector.init (Classifier.init None))
                  (analyze_realtime_audio init
                     (Some (pause_then_speech, 0, 0))).1 0%Z))
     = 1%nat.
Proof.
  cbv zeta.
  assert (Hp : 0.7 < AudioFeatures.pause_score
                       (default ∅ (analyze_realtime_audio init
                                     (Some (pause_then_speech, 0, 0))).1))
    by (vm_compute; reflexivity).
  assert (Hne : default ∅ (analyze_realtime_audio init
                             (Some (pause_then_speech, 0, 0))).1 <> ∅)
    by (intros H; rewrite H in Hp; vm_compute in Hp; discriminate).
  destruct (C8_pause_score_raises_medium_alert _ Client.started
              (Detector.init (Classifier.init None)) 0 0%Z Hp Hne eq_refl)
    as [(a & Hc & _) Hd].
  split; [exact Hp|]. split.
  - rewrite Hc. reflexivity.
  - destruct (Hd init (Some (pause_then_speech, 0, 0)))
      as (a' & Hd' & _); [vm_compute; reflexivity|].
    rewrite Hd'. reflexivity.
Defined.

End AudioFacts.

(** ** The behavior monitor *)

Module BehaviorFacts.

Import PyFacts BehaviorMonitor.
Local Open Scope Q_scope.

Lemma min2_one_range x : 0 <= x -> 0 <= Py.min2 1.0 x <= 1.
Proof. intros H. destruct (min2_cases 1.0 x) as [[? ->]|[? ->]]; lra. Qed.

Lemma min2_one_raises x d : x <= 1 -> 0 <= d -> x <= Py.min2 1.0 (x + d).
Proof. intros H Hd. destruct (min2_cases 1.0 (x + d)) as [[? ->]|[? ->]]; lra. Qed.

Lemma behavior_score_bounds
    (sqrt : Q -> Q) (self : BehaviorMonitor) (now : Q) :
  0 <= suspicion_score self <= 1 ->
  suspicion_score self <= get_suspicion_score sqrt self now <= 1.
Proof.
  intros H. unfold get_suspicion_score. cbv zeta.
  set (score := if default false _ then _ else _).
  assert (Hs : suspicion_score self <= score <= 1).
  { unfold score. destruct (default false _); [|lra].
    pose proof (min2_one_raises (suspicion_score self) 0.2).
    pose proof (min2_one_range (suspicion_score self + 0.2)). lra. }
  clearbody score. destruct (_ && _); [|lra].
  pose proof (min2_one_raises score 0.1).
  pose proof (min2_one_range (score + 0.1)). lra.
Qed.

(** [get_suspicion_score] of the behavior monitor never lowers the stored
    score and stays at most [1] while the stored score is in [[0,1]]. *)
Theorem behavior_score_in_range
    (sqrt : Q -> Q) (self : BehaviorMonitor) (now : Q) :
  0 <= suspicion_score self <= 1 ->
  suspicion_score self <= get_suspicion_score sqrt self now <= 1.
Proof. apply behavior_score_bounds. Qed.

(** A new monitor. *)
Lemma behavior_score_in_range_witness :
  suspicion_score init <= get_suspicion_score (fun x => x) init 0 <= 1.
Proof.
  apply behavior_score_in_range. vm_compute. split; discriminate.
Defined.

Lemma max_from_ge x xs : x <= max_from x xs.
Proof.
  unfold max_from. revert x. induction xs as [|y ys IH]; intros x; cbn.
  - lra.
  - specialize (IH (Py.max2 x y)).
    destruct (max2_cases x y) as [[? E]|[? E]]; rewrite E in *; lra.
Qed.

Lemma max_from_elem x xs : max_from x xs = x \/ max_from x xs ∈ xs.
Proof.
  unfold max_from. revert x. induction xs as [|y ys IH]; intros x; cbn.
  - now left.
  - destruct (IH (Py.max2 x y)) as [E|Hin].
    + rewrite E. destruct (max2_cases x y) as [[? ->]|[? ->]];
        [right; left|now left].
    + right. now right.
Qed.

Lemma max_from_upper x xs y : y ∈ xs -> y <= max_from x xs.
Proof.
  unfold max_from. revert x. induction xs as [|z zs IH]; intros x Hin; cbn.
  - now apply not_elem_of_nil in Hin.
  - apply elem_of_cons in Hin. destruct Hin as [->|Hin]; [|now apply IH].
    pose proof (max_from_ge (Py.max2 x z) zs) as H. unfold max_from in H.
    destruct (max2_cases x z) as [[? E]|[? E]]; rewrite E in *; lra.
Qed.

Lemma recent_clipboard_score self sqrt now :
  exists m,
    clipboard_ai_score (get_activity_summary sqrt self now) = Some m
    /\ (0.7 < m <->
        exists c, c ∈ Py.last_n 5 (clipboard_history self) /\ 0.7 < ai_score c).
Proof.
  unfold get_activity_summary. cbn [clipboard_ai_score].
  eexists. split; [reflexivity|].
  destruct (Py.last_n 5 (clipboard_history self)) as [|c recent].
  - split; [intros H; lra|]. intros (c & Hc & _). now apply not_elem_of_nil in Hc.
  - split.
    + intros H. destruct (max_from_elem (ai_score c) (ai_score <$> recent)) as [E|Hin].
      * exists c. split; [left|]. now rewrite <- E.
      * apply list_elem_of_fmap in Hin. destruct Hin as (c' & E & Hin).
        exists c'. split; [now right|]. now rewrite <- E.
    + intros (c' & Hin & H). apply elem_of_cons in Hin. destruct Hin as [->|Hin].
      * pose proof (max_from_ge (ai_score c) (ai_score <$> recent)). lra.
      * assert (ai_score c' ∈ ai_score <$> recent)
          by (apply list_elem_of_fmap; eauto).
        pose proof (max_from_upper (ai_score c) _ _ H0). lra.
Qed.

Lemma few_keystrokes self sqrt now :
  (length (keystroke_times self) <= 10)%nat ->
  rapid_typing_detected (get_activity_summary sqrt self now) = None.
Proof.
  intros H. unfold get_activity_summary. cbn [rapid_typing_detected].
  apply Nat.ltb_ge in H. now rewrite H.
Qed.

End BehaviorFacts.

(** ** The loops of the detector together *)

Module DetectorFacts.

Import PyFacts Classifier Detector DetectorLoops.
Local Open Scope Q_scope.

(** *** The mean of a list between the bounds of its elements *)

Lemma of_nat_succ n :
  AudioAnalyzer.of_nat (S n) == AudioAnalyzer.of_nat n + 1.
Proof.
  unfold AudioAnalyzer.of_nat. rewrite Nat2Z.inj_succ, <- Z.add_1_r.
  now rewrite inject_Z_plus.
Qed.

Lemma of_nat_pos {A} (xs : list A) :
  xs <> [] -> 0 < AudioAnalyzer.of_nat (length xs).
Proof.
  intros Hne. unfold AudioAnalyzer.of_nat. change 0 with (inject_Z 0).
  rewrite <- Zlt_Qlt. destruct xs; [contradiction|cbn; lia].
Qed.

Lemma fold_sum_at_most t xs acc :
  Forall (fun x => x <= t) xs ->
  fold_left Qplus xs acc <= acc + AudioAnalyzer.of_nat (length xs) * t.
Proof.
  intros H. revert acc.
  induction H as [|x xs Hx Hxs IH]; intros acc; cbn [fold_left length].
  - change (AudioAnalyzer.of_nat 0) with 0. lra.
  - specialize (IH (acc + x)). rewrite of_nat_succ. lra.
Qed.

Lemma fold_sum_at_least t xs acc :
  Forall (fun x => t <= x) xs ->
  acc + AudioAnalyzer.of_nat (length xs) * t <= fold_left Qplus xs acc.
Proof.
  intros H. revert acc.
  induction H as [|x xs Hx Hxs IH]; intros acc; cbn [fold_left length].
  - change (AudioAnalyzer.of_nat 0) with 0. lra.
  - specialize (IH (acc + x)). rewrite of_nat_succ. lra.
Qed.

Lemma fold_sum_above t xs acc :
  Forall (fun x => t < x) xs -> xs <> [] ->
  acc + AudioAnalyzer.of_nat (length xs) * t < fold_left Qplus xs acc.
Proof.
  intros H. revert acc.
  induction H as [|x xs Hx Hxs IH]; intros acc Hne; [contradiction|].
  cbn [fold_left length]. rewrite of_nat_succ.
  destruct xs as [|y ys].
  - change (AudioAnalyzer.of_nat (length [])) with 0. cbn [fold_left]. lra.
  - specialize (IH (acc + x) ltac:(discriminate)). lra.
Qed.

Lemma mean_at_most t xs :
  xs <> [] -> Forall (fun x => x <= t) xs -> Py.mean xs <= t.
Proof.
  intros Hne H. unfold Py.mean, Py.sum.
  pose proof (fold_sum_at_most t xs 0 H) as H1.
  fold (AudioAnalyzer.of_nat (length xs)).
  apply Qle_shift_div_r; [now apply of_nat_pos|]. lra.
Qed.

Lemma mean_at_least t xs :
  xs <> [] -> Forall (fun x => t <= x) xs -> t <= Py.mean xs.
Proof.
  intros Hne H. unfold Py.mean, Py.sum.
  pose proof (fold_sum_at_least t xs 0 H) as H1.
  fold (AudioAnalyzer.of_nat (length xs)).
  apply Qle_shift_div_l; [now apply of_nat_pos|]. lra.
Qed.

Lemma mean_above t xs :
  xs <> [] -> Forall (fun x => t < x) xs -> t < Py.mean xs.
Proof.
  intros Hne H. unfold Py.mean, Py.sum.
  pose proof (fold_sum_above t xs 0 H Hne) as H1.
  fold (AudioAnalyzer.of_nat (length xs)).
  apply Qlt_shift_div_l; [now apply of_nat_pos|]. lra.
Qed.

(** *** One cycle of the pattern analysis *)

(** In a cycle that leaves more than ten scores recorded, the CRITICAL
    [AI_DETECTION] alert is appended when each of the last ten is above
    [0.75], and nothing is appended when none is. *)
Theorem sustained_scores_decide_the_alert
    (d : AIInterviewDetector) (p a b t : Q) (now : Z) :
  let scores := recorded d p a b t in
  (10 < length scores)%nat ->
  (Forall (fun s => 0.75 < s) (Py.last_n 10 scores) ->
   exists alert,
     alerts (_analyze_patterns d p a b t now) = alerts d ++ [alert]
     /\ type_ alert = AI_DETECTION /\ severity alert = CRITICAL)
  /\ (Forall (fun s => s <= 0.75) (Py.last_n 10 scores) ->
      alerts (_analyze_patterns d p a b t now) = alerts d).
Proof.
  intros scores Hlen. rewrite AlertFacts.analyze_patterns_alerts.
  fold scores. apply Nat.ltb_lt in Hlen. rewrite Hlen. cbn [andb].
  assert (Hne : Py.last_n 10 scores <> []).
  { apply Nat.ltb_lt in Hlen. unfold Py.last_n. intros E.
    apply (f_equal length) in E. rewrite length_drop in E. cbn in E. lia. }
  split; intros H.
  - pose proof (mean_above 0.75 _ Hne H) as Hm. apply gt_true in Hm.
    rewrite Hm. eexists. split; [reflexivity|]. split; reflexivity.
  - pose proof (mean_at_most 0.75 _ Hne H) as Hm.
    apply gt_false in Hm. now rewrite Hm.
Qed.

(** The eleventh cycle with every monitor at [1]. *)
Lemma sustained_scores_decide_the_alert_witness :
  exists alert,
    alerts (analysis_cycles (Detector.init (Classifier.init None))
              (repeat (1, 1, 1, 0, 0%Z) 11))
    = [alert]
    /\ type_ alert = AI_DETECTION /\ severity alert = CRITICAL.
Proof.
  destruct (sustained_scores_decide_the_alert
              (analysis_cycles (Detector.init (Classifier.init None))
                 (repeat (1, 1, 1, 0, 0%Z) 10))
              1 1 1 0 0%Z) as [H _].
  - vm_compute. lia.
  - exact (H ltac:(vm_compute; repeat constructor)).
Defined.

(** *** The whole detector *)

Section Rendering.

Variable str_of_list : list string -> string.
Variable fmt_2f : Q -> string.
Variable sqrt : Q -> Q.

Local Abbreviation step := (step str_of_list fmt_2f sqrt).
Local Abbreviation run := (run str_of_list fmt_2f sqrt).

Lemma run_cons sys tick ticks : run sys (tick :: ticks) = run (step sys tick) ticks.
Proof. reflexivity. Qed.

(** What one iteration adds to the alert log. *)
Lemma step_alerts sys tick :
  exists new,
    alerts (detector (step sys tick)) = alerts (detector sys) ++ new
    /\ Forall typed new /\ (length new <= 2)%nat.
Proof.
  destruct tick as [processes now|audio now|bm time_ now now'|bm time_ time' now];
    cbn [DetectorLoops.step].
  - unfold _monitor_processes.
    destruct (ProcessMonitor.detect_suspicious_processes _ _ _) as [[|n l] pm];
      cbn [detector alerts append_alert].
    + exists []. rewrite app_nil_r. repeat split; [constructor|cbn; lia].
    + eexists [_]. split; [reflexivity|]. split; [|cbn; lia].
      repeat constructor.
  - destruct (AudioAnalyzer.analyze_realtime_audio _ _) as [[features|] aa];
      cbn [detector]; unfold Detector._monitor_audio.
    + destruct (bool_decide _); [|destruct (_ && _)]; cbn [alerts append_alert].
      * exists []. rewrite app_nil_r. repeat split; [constructor|cbn; lia].
      * eexists [_]. split; [reflexivity|]. split; [|cbn; lia].
        repeat constructor.
      * exists []. rewrite app_nil_r. repeat split; [constructor|cbn; lia].
    + exists []. rewrite app_nil_r. repeat split; [constructor|cbn; lia].
  - cbn [detector]. unfold _monitor_behavior. cbv zeta.
    destruct (Py.gt _ 0.7); destruct (default false _);
      cbn [alerts append_alert].
    + eexists [_; _]. rewrite <- app_assoc. split; [reflexivity|].
      split; [|cbn; lia]. repeat constructor.
    + eexists [_]. split; [reflexivity|]. split; [|cbn; lia]. repeat constructor.
    + eexists [_]. split; [reflexivity|]. split; [|cbn; lia]. repeat constructor.
    + exists []. rewrite app_nil_r. repeat split; [constructor|cbn; lia].
  - cbn [detector]. rewrite AlertFacts.analyze_patterns_alerts.
    destruct (_ && _).
    + eexists [_]. split; [reflexivity|]. split; [|cbn; lia]. repeat constructor.
    + exists []. rewrite app_nil_r. repeat split; [constructor|cbn; lia].
Qed.

(** Whatever the loops do, in whatever order their iterations come, the
    alert log only grows at its end, by at most two alerts an iteration,
    and every alert added carries the severity of its type. *)
Theorem alert_log_only_grows (sys : System) (ticks : list Tick) :
  exists new,
    alerts (detector (run sys ticks)) = alerts (detector sys) ++ new
    /\ Forall (fun a => severity a = severity_of (type_ a)) new
    /\ (length new <= 2 * length ticks)%nat.
Proof.
  revert sys. induction ticks as [|tick ticks IH]; intros sys.
  - exists []. cbn. rewrite app_nil_r. repeat split; [constructor|lia].
  - rewrite run_cons. destruct (step_alerts sys tick) as (new1 & E1 & T1 & L1).
    destruct (IH (step sys tick)) as (new2 & E2 & T2 & L2).
    exists (new1 ++ new2). rewrite E2, E1, <- app_assoc. split; [reflexivity|].
    split; [now apply Forall_app|]. rewrite length_app. cbn [length]. lia.
Qed.

Lemma deque_append_length {A} cap (xs : list A) x :
  length (Py.deque_append cap xs x) = (S (length xs) `min` cap)%nat.
Proof.
  unfold Py.deque_append. destruct (cap <=? length xs)%nat eqn:E.
  - apply Nat.leb_le in E. rewrite length_drop, length_app. cbn [length]. lia.
  - apply Nat.leb_gt in E. rewrite length_app. cbn [length]. lia.
Qed.

Lemma deque_append_Forall {A} (P : A -> Prop) cap xs x :
  Forall P xs -> P x -> Forall P (Py.deque_append cap xs x).
Proof.
  intros Hxs Hx. assert (Forall P (xs ++ [x])) by (apply Forall_app; auto).
  unfold Py.deque_append. destruct (cap <=? length xs)%nat; [|assumption].
  now apply Forall_drop.
Qed.

(** The loops other than the analysis leave the scores alone. *)
Lemma step_scores_other sys tick :
  is_analysis tick = false ->
  detection_scores (detector (step sys tick)) = detection_scores (detector sys)
  /\ classifier (detector (step sys tick)) = classifier (detector sys).
Proof.
  destruct tick as [processes now|audio now|bm time_ now now'|bm time_ time' now];
    cbn [DetectorLoops.step is_analysis]; [| | |discriminate]; intros _.
  - unfold _monitor_processes.
    now destruct (ProcessMonitor.detect_suspicious_processes _ _ _) as [[|n l] pm].
  - destruct (AudioAnalyzer.analyze_realtime_audio _ _) as [[features|] aa];
      cbn [detector]; unfold Detector._monitor_audio; [|auto].
    destruct (bool_decide _); [|destruct (_ && _)]; auto.
  - cbn [detector]. unfold _monitor_behavior. cbv zeta.
    destruct (Py.gt _ 0.7); destruct (default false _); auto.
Qed.

Lemma analyze_patterns_classifier d p a b t now :
  classifier (_analyze_patterns d p a b t now) = classifier d.
Proof.
  unfold _analyze_patterns. cbv zeta. cbn [detection_scores].
  repeat case_match; reflexivity.
Qed.

(** The score history grows by one with each analysis cycle until it
    holds 100 scores, and holds 100 from then on. *)
Theorem score_history_is_bounded (sys : System) (ticks : list Tick) :
  (length (detection_scores (detector sys)) <= 100)%nat ->
  length (detection_scores (detector (run sys ticks)))
  = ((length (detection_scores (detector sys))
      + length (filter (fun tick => is_analysis tick = true) ticks))
     `min` 100)%nat.
Proof.
  revert sys. induction ticks as [|tick ticks IH]; intros sys Hlen.
  - cbn. lia.
  - rewrite run_cons, filter_cons. destruct (is_analysis tick) eqn:E.
    + rewrite decide_True by reflexivity. destruct tick; try discriminate.
      assert (Hs : length (detection_scores (detector (step sys
                     (AnalysisTick monitor time_ time' now))))
                   = (S (length (detection_scores (detector sys))) `min` 100)%nat).
      { cbn [DetectorLoops.step detector].
        rewrite AlertFacts.analyze_patterns_scores. unfold recorded.
        apply deque_append_length. }
      rewrite IH by lia. rewrite Hs. cbn [length]. lia.
    + rewrite decide_False by discriminate.
      destruct (step_scores_other sys tick E) as [Hs _].
      rewrite IH by (rewrite Hs; exact Hlen). now rewrite Hs.
Qed.


Lemma get_features_of p a b t :
  get (features_of p a b t) "process_score" 0.0 = p
  /\ get (features_of p a b t) "audio_score" 0.0 = a
  /\ get (features_of p a b t) "behavior_score" 0.0 = b.
Proof.
  unfold get, features_of. split; [|split].
  - now rewrite lookup_insert_eq.
  - now rewrite lookup_insert_ne, lookup_insert_eq by (intros [=]).
  - now rewrite !lookup_insert_ne, lookup_insert_eq by (intros [=]).
Qed.

Lemma prediction_range p a b t :
  0 <= p <= 1 -> 0 <= a <= 1 -> 0 <= b <= 1 ->
  0 <= predict (Classifier.init None) (features_of p a b t) <= 1.
Proof.
  intros Hp Ha Hb. rewrite ClassifierFacts.predict_untrained.
  destruct (get_features_of p a b t) as (Ep & Ea & Eb).
  apply ClassifierFacts.rule_based_bounds; rewrite ?Ep, ?Ea, ?Eb; assumption.
Qed.

Lemma step_in_range sys tick :
  in_range sys -> behaved tick -> in_range (step sys tick).
Proof.
  intros [Hc Hp Ha Hs] Hb.
  destruct (is_analysis tick) eqn:E.
  - destruct tick as [| | |bm time_ time' now]; try discriminate.
    cbn [DetectorLoops.step]. split; cbn [detector process_monitor audio_analyzer];
      [now rewrite analyze_patterns_classifier|assumption|assumption|].
    rewrite AlertFacts.analyze_patterns_scores. unfold recorded.
    apply deque_append_Forall; [exact Hs|]. rewrite Hc.
    apply prediction_range; [exact Hp|exact Ha|].
    cbn in Hb. pose proof (BehaviorFacts.behavior_score_bounds sqrt bm time_ Hb).
    lra.
  - destruct (step_scores_other sys tick E) as [Es Ec].
    split; [now rewrite Ec| | |now rewrite Es];
      destruct tick as [processes now|audio now|bm time_ now now'|];
      try discriminate; cbn [DetectorLoops.step]; try assumption.
    + unfold _monitor_processes.
      pose proof (ProcessFacts.detect_score (process_monitor sys) processes
                    suspicious_keywords Hp) as (H & _).
      destruct (ProcessMonitor.detect_suspicious_processes _ _ _) as [[|n l] pm];
        exact H.
    + destruct (AudioAnalyzer.analyze_realtime_audio _ _) as [f aa]; exact Hp.
    + unfold _monitor_processes.
      destruct (ProcessMonitor.detect_suspicious_processes _ _ _) as [[|n l] pm];
        exact Ha.
    + destruct audio as [[[is_speech pitch] centroid]|]; [|exact Ha].
      destruct (AudioFacts.extract_features (audio_analyzer sys)
                  is_speech pitch centroid) as (f & aa & E' & _ & _ & _ & H).
      unfold AudioAnalyzer.analyze_realtime_audio. rewrite E'. exact H.
Qed.

(** Without a trained model, and with behavior monitors whose stored
    score is in [[0,1]], every score the detector records is in [[0,1]],
    and so is the average of the final report. *)
Theorem recorded_scores_stay_in_range (ticks : list Tick) :
  Forall behaved ticks ->
  let sys := run (start (Classifier.init None)) ticks in
  Forall (fun s => 0 <= s <= 1) (detection_scores (detector sys))
  /\ 0 <= average_detection_score (generate_report (detector sys)) <= 1.
Proof.
  intros Hb sys.
  assert (Hr : in_range sys).
  { subst sys. assert (H0 : in_range (start (Classifier.init None))).
    { split; cbn; [reflexivity|lra|lra|constructor]. }
    revert H0. generalize (start (Classifier.init None)).
    induction Hb as [|tick ticks Ht Hts IH]; intros sys0 H0; [exact H0|].
    rewrite run_cons. apply IH. now apply step_in_range. }
  destruct Hr as [_ _ _ Hs]. split; [exact Hs|].
  unfold generate_report. cbn [average_detection_score].
  destruct (detection_scores (detector sys)) as [|s l] eqn:E; [lra|].
  split.
  - apply mean_at_least; [discriminate|]. eapply Forall_impl; [exact Hs|].
    cbn. intros; lra.
  - apply mean_at_most; [discriminate|]. eapply Forall_impl; [exact Hs|].
    cbn. intros; lra.
Qed.


End Rendering.

(** 120 analysis cycles from the start. *)
Lemma score_history_is_bounded_witness :
  length (detection_scores
            (detector
               (run (fun _ => ""%string) (fun _ => ""%string) (fun x => x)
                  (start (Classifier.init None))
                  (repeat (AnalysisTick BehaviorMonitor.init 0 0 0%Z) 120))))
  = 100%nat.
Proof.
  rewrite score_history_is_bounded; [|vm_compute; lia].
  vm_compute. reflexivity.
Defined.

(** A process round that finds a tool, then an analysis cycle. *)
Lemma recorded_scores_stay_in_range_witness :
  0 <= average_detection_score
         (generate_report
            (detector
               (run (fun _ => ""%string) (fun _ => ""%string) (fun x => x)
                  (start (Classifier.init None))
                  [ProcessTick
                     [{| ProcessMonitor.pid := 1;
                         ProcessMonitor.name := "claude";
                         ProcessMonitor.exe := "";
                         ProcessMonitor.cmdline := "" |}] 0%Z;
                   AnalysisTick BehaviorMonitor.init 0 0 0%Z])))
    <= 1.
Proof.
  apply (recorded_scores_stay_in_range (fun _ => ""%string)
           (fun _ => ""%string) (fun x => x)).
  repeat constructor; vm_compute; discriminate.
Defined.

(** [stop_monitoring] clears the flag, and in the report it generates the
    three severity counts add up to the number of alerts, which are all
    the alerts of the log. *)
Theorem report_counts_partition (d : AIInterviewDetector) :
  let report := (stop_monitoring d).2 in
  (critical report + high report + medium report)%nat = total_alerts report
  /\ total_alerts report = length (alerts d)
  /\ report_alerts report = alerts d
  /\ is_monitoring (stop_monitoring d).1 = false.
Proof.
  cbv zeta. unfold stop_monitoring, generate_report, count_severity. cbn.
  split; [|auto]. induction (alerts d) as [|a l IH]; [reflexivity|].
  rewrite !filter_cons. cbn [length].
  destruct (severity a); repeat case_decide; try congruence; cbn [length]; lia.
Qed.

(** *** The alert of the pattern analysis and the tenth score *)




End DetectorFacts.

(** ** The reports of the client, from the client to the server *)

Module ClientFacts.

Import PyFacts Classifier Client ClientLoops.
Local Open Scope Q_scope.

Section Rendering.

Variable list_of_set : list string -> list string.
Variable sqrt : Q -> Q.

Local Abbreviation build_report := (build_report list_of_set sqrt).
Local Abbreviation _report_to_server := (_report_to_server list_of_set sqrt).

Lemma last_n_length {A} n (xs : list A) : (length (Py.last_n n xs) <= n)%nat.
Proof. unfold Py.last_n. rewrite length_drop. lia. Qed.

Lemma last_n_suffix {A} n (xs : list A) : Py.last_n n xs `suffix_of` xs.
Proof. unfold Py.last_n. apply suffix_drop. Qed.

(** A report the client builds for a session whose token it holds, once
    delivered, is accepted: the record of the session is [active], dated
    at the arrival, holds the score the client has just recorded, and
    holds the last alerts of the client's log, ten at most.  The client's
    own log is unchanged. *)
Theorem delivered_report_is_stored
    (r : Reporter) (monitor : BehaviorMonitor.BehaviorMonitor)
    (time_ time' : Q) (processes : list ProcessMonitor.Process)
    (st : Server.State) (now : Z) (entry : Server.TokenEntry) :
  Server.session_tokens st !! session_id r = Some entry ->
  Server.token entry = token r ->
  exists r' out d score,
    _report_to_server r monitor time_ time' processes (Some st) now
    = (r', Some out)
    /\ Server.code (Server.response out) = 200%nat
    /\ Server.active_sessions (Server.state out) !! session_id r = Some d
    /\ Server.status d = Server.active
    /\ Server.last_update d = now
    /\ detection_scores (client r') = detection_scores (client r) ++ [score]
    /\ alerts (client r') = alerts (client r)
    /\ Server.detection_score d = score
    /\ Server.alerts d `suffix_of` alerts (client r)
    /\ (length (Server.alerts d) <= 10)%nat.
Proof.
  intros He Ht. unfold ClientLoops._report_to_server, ClientLoops.build_report.
  cbv zeta. cbn [fmap option_fmap option_map].
  eexists _, _. 
  match goal with
  | |- context [Server.receive_detection_report st ?data now] =>
      destruct (ServerFacts.report_accepted st data now (session_id r) entry
                  eq_refl He) as (Hr & _ & d & Hact & _ & Hst & Hlu & Hsc & Hal & _);
        [cbn; now rewrite Ht|]
  end.
  cbv zeta in Hr, Hact. exists d. eexists. split; [reflexivity|].
  rewrite Hr, Hact, lookup_insert_eq. cbn [Server.code client with_client detection_scores alerts].
  split; [reflexivity|]. split; [reflexivity|]. split; [exact Hst|].
  split; [exact Hlu|]. split; [reflexivity|]. split; [reflexivity|].
  split; [exact Hsc|]. rewrite Hal. cbn [Server.r_alerts default].
  split; [apply last_n_suffix|apply last_n_length].
Qed.


(** Client, classifier and server together: without a trained model, a
    delivered report whose process, audio or behavior score is above
    [0.9] makes the server emit [high_risk_alert] for the session, with a
    score of at least [0.85], and leaves the session [active]. *)
Theorem very_high_score_reaches_the_recruiter
    (r : Reporter) (monitor : BehaviorMonitor.BehaviorMonitor)
    (time_ time' : Q) (processes : list ProcessMonitor.Process)
    (st : Server.State) (now : Z) (entry : Server.TokenEntry) :
  Server.session_tokens st !! session_id r = Some entry ->
  Server.token entry = token r ->
  ClientLoops.classifier r = Classifier.init None ->
  (let report := (build_report r monitor time_ time' processes).1 in
   0.9 < default 0 (Server.r_process_score report)
   \/ 0.9 < default 0 (Server.r_audio_score report)
   \/ 0.9 < default 0 (Server.r_behavior_score report)) ->
  exists out d score,
    (_report_to_server r monitor time_ time' processes (Some st) now).2
    = Some out
    /\ 0.85 <= score
    /\ Server.emitted out
       = [Server.candidate_update (session_id r) d;
          Server.high_risk_alert (session_id r)
            (Server.tok_candidate_name entry) score]
    /\ Server.detection_score d = score
    /\ Server.session_status (Server.state out) (session_id r)
       = Some Server.active.
Proof.
  intros He Ht Hc Hhigh. unfold ClientLoops._report_to_server.
  cbv zeta in Hhigh. unfold ClientLoops.build_report in *. cbv zeta in *.
  cbn [fst snd fmap option_fmap option_map Server.r_process_score
       Server.r_audio_score Server.r_behavior_score default] in *.
  rewrite Hc in *.
  match goal with
  | |- context [predict _ (features_of ?p ?a ?b ?t)] =>
      pose proof (ClassifierRules.rule_based_floor (features_of p a b t)) as Hfloor;
        destruct (DetectorFacts.get_features_of p a b t) as (Ep & Ea & Eb);
        rewrite Ep, Ea, Eb in Hfloor; specialize (Hfloor Hhigh);
        rewrite <- ClassifierFacts.predict_untrained in Hfloor;
        set (score := predict (Classifier.init None) (features_of p a b t)) in *
  end.
  eexists _, _, score. split; [reflexivity|]. split; [exact Hfloor|].
  unfold Server.receive_detection_report. cbn [Server.r_session_id Server.r_token].
  rewrite He, Ht. rewrite bool_decide_eq_false_2 by (intros H; now apply H).
  cbn [Server.emitted Server.state Server.r_detection_score default].
  assert (Hgt : Py.gt score 0.75 = true) by (apply gt_true; lra).
  unfold id. rewrite Hgt. split; [reflexivity|]. split; [reflexivity|].
  unfold Server.session_status. cbn. now rewrite lookup_insert_eq.
Qed.


End Rendering.

(** A client of Alice's session. *)
Lemma delivered_report_is_stored_witness :
  exists r' out,
    ClientLoops._report_to_server (fun l => l) (fun x => x) alice_reporter
      BehaviorMonitor.init 0 0 [] (Some (Server.serve Server.initial
                                           [Server.alice_created]))
      Server.minute
    = (r', Some out)
    /\ Server.code (Server.response out) = 200%nat.
Proof.
  destruct (delivered_report_is_stored (fun l => l) (fun x => x) alice_reporter
              BehaviorMonitor.init 0 0 []
              (Server.serve Server.initial [Server.alice_created])
              Server.minute
              {| Server.token := "t1"; Server.tok_candidate_name := "Alice";
                 Server.created_at := 0; Server.tok_status := Server.waiting |}
              eq_refl eq_refl)
    as (r' & out & d & score & H & Hc & _).
  exists r', out. split; [exact H|exact Hc].
Defined.

(** A client of Alice's session whose process monitor is at [1]. *)
Lemma very_high_score_reaches_the_recruiter_witness :
  exists out d score,
    (ClientLoops._report_to_server (fun l => l) (fun x => x) alice_reporter
       BehaviorMonitor.init 0 0 []
       (Some (Server.serve Server.initial [Server.alice_created]))
       Server.minute).2
    = Some out
    /\ 0.85 <= score
    /\ Server.emitted out
       = [Server.candidate_update "s1" d;
          Server.high_risk_alert "s1" "Alice" score].
Proof.
  destruct (very_high_score_reaches_the_recruiter (fun l => l) (fun x => x)
              alice_reporter BehaviorMonitor.init 0 0 []
              (Server.serve Server.initial [Server.alice_created])
              Server.minute
              {| Server.token := "t1"; Server.tok_candidate_name := "Alice";
                 Server.created_at := 0; Server.tok_status := Server.waiting |}
              eq_refl eq_refl eq_refl)
    as (out & d & score & H & Hs & He & _).
  - left. vm_compute. reflexivity.
  - exists out, d, score. auto.
Defined.

End ClientFacts.

(** ** The process and behavior loops *)

Module LoopFacts.

Import PyFacts PyText.
Local Open Scope Q_scope.

Lemma detect_nothing self processes keywords :
  (ProcessMonitor.detect_suspicious_processes self processes keywords).1 = []
  <-> ~ ProcessMonitor.some_match processes keywords.
Proof.
  unfold ProcessMonitor.detect_suspicious_processes. cbn [fst].
  rewrite ProcessFacts.scan_filter, app_nil_l. split.
  - intros E (proc & k & Hin & Hk & H).
    assert (Hm : ProcessMonitor.name proc
                 ∈ ProcessMonitor.name
                   <$> filter (fun p => ProcessMonitor.matches p keywords = true)
                         processes).
    { apply list_elem_of_fmap. exists proc. split; [reflexivity|].
      apply list_elem_of_filter. split; [|exact Hin].
      apply ProcessFacts.matches_spec. eauto. }
    rewrite E in Hm. now apply not_elem_of_nil in Hm.
  - intros Hn.
    destruct (filter _ processes) as [|proc l] eqn:E; [reflexivity|].
    exfalso. apply Hn.
    assert (Hin : proc ∈ filter (fun p => ProcessMonitor.matches p keywords = true)
                    processes) by (rewrite E; left).
    apply list_elem_of_filter in Hin. destruct Hin as [Hm Hin].
    apply ProcessFacts.matches_spec in Hm. destruct Hm as (k & Hk & H).
    exists proc, k. auto.
Qed.

(** The process loops of the detector and of the client append one HIGH
    [PROCESS_DETECTION] alert in a cycle where some running process
    carries one of the nine keywords, however many do, and nothing in a
    cycle where none does. *)
Theorem process_alert_iff_some_match
    (str_of_list join_set : list string -> string)
    (d : Detector.AIInterviewDetector) (monitor : ProcessMonitor.ProcessMonitor)
    (r : ClientLoops.Reporter) (processes : list ProcessMonitor.Process)
    (now : Z) (time_ : Q) :
  let d' := (DetectorLoops._monitor_processes str_of_list d monitor processes now).1 in
  let r' := ClientLoops._monitor_processes join_set r processes time_ in
  (ProcessMonitor.some_match processes DetectorLoops.suspicious_keywords ->
   (exists a, Detector.alerts d' = Detector.alerts d ++ [a]
              /\ type_ a = PROCESS_DETECTION /\ severity a = HIGH)
   /\ (exists a, Client.alerts (ClientLoops.client r')
                 = Client.alerts (ClientLoops.client r) ++ [a]
                 /\ type_ a = PROCESS_DETECTION /\ severity a = HIGH))
  /\ (~ ProcessMonitor.some_match processes DetectorLoops.suspicious_keywords ->
      Detector.alerts d' = Detector.alerts d
      /\ Client.alerts (ClientLoops.client r')
         = Client.alerts (ClientLoops.client r)).
Proof.
  cbv zeta. unfold DetectorLoops._monitor_processes, ClientLoops._monitor_processes.
  pose proof (detect_nothing monitor processes DetectorLoops.suspicious_keywords) as Hd.
  pose proof (detect_nothing (ClientLoops.process_monitor r) processes
                DetectorLoops.suspicious_keywords) as Hc.
  destruct (ProcessMonitor.detect_suspicious_processes monitor _ _) as [[|n l] pm];
    destruct (ProcessMonitor.detect_suspicious_processes
                (ClientLoops.process_monitor r) _ _) as [[|n' l'] pm'];
    cbn [fst] in *.
  - split; [intros H; now apply Hd in H|auto].
  - split; [intros H; now apply Hd in H|].
    intros H. apply Hc in H. discriminate.
  - split; [|intros H; apply Hd in H; discriminate].
    intros H. exfalso. now apply Hc in H.
  - split; [|intros H; apply Hd in H; discriminate].
    intros _. split; eexists; (split; [reflexivity|]); split; reflexivity.
Qed.

(** In a cycle of the behavior loop, a [CLIPBOARD_DETECTION] alert is
    appended exactly when one of the last five clipboard entries has a
    score above [0.7], and a [TYPING_ANOMALY] alert only when more than
    ten keystrokes are on record. *)
Theorem behavior_alerts_follow_the_monitor
    (fmt_2f : Q -> string) (sqrt : Q -> Q)
    (d : Detector.AIInterviewDetector)
    (monitor : BehaviorMonitor.BehaviorMonitor) (time_ : Q) (now now' : Z) :
  let d' :=
    DetectorLoops._monitor_behavior fmt_2f d
      (BehaviorMonitor.get_activity_summary sqrt monitor time_) now now' in
  exists new,
    Detector.alerts d' = Detector.alerts d ++ new
    /\ ((exists a, a ∈ new /\ type_ a = CLIPBOARD_DETECTION)
        <-> exists c,
              c ∈ Py.last_n 5 (BehaviorMonitor.clipboard_history monitor)
              /\ 0.7 < BehaviorMonitor.ai_score c)
    /\ ((exists a, a ∈ new /\ type_ a = TYPING_ANOMALY) ->
        (10 < length (BehaviorMonitor.keystroke_times monitor))%nat).
Proof.
  cbv zeta. unfold DetectorLoops._monitor_behavior. cbv zeta.
  destruct (BehaviorFacts.recent_clipboard_score monitor sqrt time_) as (m & Em & Hm).
  rewrite Em. change (default 0 (Some m)) with m.
  assert (Hk : default false (BehaviorMonitor.rapid_typing_detected
                 (BehaviorMonitor.get_activity_summary sqrt monitor time_)) = true ->
               (10 < length (BehaviorMonitor.keystroke_times monitor))%nat).
  { intros H. destruct (Nat.lt_ge_cases 10
                          (length (BehaviorMonitor.keystroke_times monitor)))
      as [Hlt|Hge]; [exact Hlt|].
    rewrite BehaviorFacts.few_keystrokes in H by exact Hge. discriminate. }
  destruct (Py.gt m 0.7) eqn:E7;
    [apply gt_true in E7|apply gt_false in E7];
    destruct (default false _) eqn:Er; cbn [Detector.alerts Detector.append_alert].
  - eexists [_; _]. rewrite <- app_assoc. split; [reflexivity|]. split.
    + split; [intros _; now apply Hm|]. intros _. eexists. split; [left|reflexivity].
    + intros _. now apply Hk.
  - eexists [_]. split; [reflexivity|]. split.
    + split; [intros _; now apply Hm|]. intros _. eexists. split; [left|reflexivity].
    + intros (a & Ha & Ht). apply list_elem_of_singleton in Ha. subst a. discriminate.
  - eexists [_]. split; [reflexivity|]. split.
    + split.
      * intros (a & Ha & Ht). apply list_elem_of_singleton in Ha. subst a. discriminate.
      * intros H. apply Hm in H. lra.
    + intros _. now apply Hk.
  - exists []. rewrite app_nil_r. split; [reflexivity|]. split.
    + split.
      * intros (a & Ha & _). now apply not_elem_of_nil in Ha.
      * intros H. apply Hm in H. lra.
    + intros (a & Ha & _). now apply not_elem_of_nil in Ha.
Qed.

End LoopFacts.
